(** * WhatsApp REST facade: connection-lifecycle glue of the three variants

    The repository holds three near-duplicate services around one protocol
    client library:

    - the Mongo variant   (src/api/index.js, first module: a serverless
      handler, credentials in a document collection);
    - the Express variant (src/api/index.js, second module: a long-running
      server, credentials in a local folder, retry counter);
    - the Tmp variant     (src/unnamed/part_000: a serverless handler,
      credentials in an ephemeral folder, idle policy).

    Each variant is embedded as explicit state passing over its global
    variables and its credential store.  What the protocol library, the
    clock and the file system do is supplied from outside: an [env] record
    per request, an [update] per connection event.  Every call on the
    protocol layer, every timer that reconnects and every file-system call
    is recorded in a trace of [effect]s.

    A handler runs on the state it finds and is not interleaved with other
    handlers; a [connection.update] is a step of its own, except for the
    updates that a caller of the Tmp variant's [connectToWhatsApp] waits
    for.  A reconnect timer is recorded when it is set; its firing is a
    later call of the variant's connect function.  The one other timer of
    the source, the 45 s one that rejects the connect promise of the Tmp
    variant, is no effect of the trace: it is the end of the updates that
    the caller waits for.  Files and documents written by the
    library itself (on [creds.update]) are changes of the store between
    steps.  Console output is left out. *)

From Stdlib Require Import String Ascii List ZArith Bool Lia.
Import ListNotations.
Open Scope string_scope.
Open Scope Z_scope.

Set Implicit Arguments.

(** ** JavaScript string primitives used by the source *)

(** [\d]: the ten ASCII digits (a code unit outside them is [\D]). *)
Definition is_digit (c : ascii) : bool :=
  let n := nat_of_ascii c in (Nat.leb 48 n && Nat.leb n 57)%bool.

(** [s.replace(/\D/g, '')] *)
Fixpoint strip_non_digits (s : string) : string :=
  match s with
  | EmptyString => EmptyString
  | String c r =>
      if is_digit c then String c (strip_non_digits r) else strip_non_digits r
  end.

(** [s.startsWith(p)] *)
Fixpoint startsWith (s p : string) {struct p} : bool :=
  match p, s with
  | EmptyString, _ => true
  | String _ _, EmptyString => false
  | String a p', String b s' => (Ascii.eqb b a && startsWith s' p')%bool
  end.

(** [s.substring(n)] with one argument: the string without its first [n]
    code units. *)
Fixpoint substring_from (n : nat) (s : string) : string :=
  match n, s with
  | O, _ => s
  | S _, EmptyString => EmptyString
  | S k, String _ r => substring_from k r
  end.

(** [s.split(':')[0]] *)
Fixpoint before_colon (s : string) : string :=
  match s with
  | EmptyString => EmptyString
  | String c r => if Ascii.eqb c ":" then EmptyString else String c (before_colon r)
  end.

(** Every code unit of [s] is a decimal digit. *)
Fixpoint all_digits (s : string) : bool :=
  match s with
  | EmptyString => true
  | String c r => (is_digit c && all_digits r)%bool
  end.

(** No code unit of [s] is a decimal digit. *)
Fixpoint no_digit (s : string) : bool :=
  match s with
  | EmptyString => true
  | String c r => (negb (is_digit c) && no_digit r)%bool
  end.

(** ** formatPhoneNumber (the same text in the three variants) *)

Definition formatPhoneNumber (phone : string) : string :=
  let formatted := strip_non_digits phone in
  if startsWith formatted "0" then
    "62" ++ substring_from 1 formatted
  else if negb (startsWith formatted "62") then
    "62" ++ formatted
  else
    formatted.

(** ** JSON values, requests and responses *)

#[warnings="-register-all"] Inductive jsval : Type :=
| JUndefined
| JNull
| JBool (b : bool)
| JNum (n : Z)
| JStr (s : string)
| JArr (items : list jsval).

(** JavaScript truthiness, as the [!x] and [x ? a : b] of the source see it. *)
Definition truthy (v : jsval) : bool :=
  match v with
  | JUndefined | JNull => false
  | JBool b => b
  | JNum n => negb (n =? 0)
  | JStr s => negb (s =? "")%string
  | JArr _ => true
  end.

Definition truthy_str (o : option string) : bool :=
  match o with
  | Some s => negb (s =? "")%string
  | None => false
  end.

(** A JSON object: its fields in the order the source writes them. *)
Definition fields := list (string * jsval).

Fixpoint field (k : string) (o : fields) : option jsval :=
  match o with
  | [] => None
  | (k', v) :: r => if (k' =? k)%string then Some v else field k r
  end.

(** [const { phone } = body]: a field that is absent reads as [undefined]. *)
Definition prop (k : string) (o : fields) : jsval :=
  match field k o with
  | Some v => v
  | None => JUndefined
  end.

(** [x || null] and [x ? x : null] on an optional string. *)
Definition str_or_null (o : option string) : jsval :=
  match o with
  | Some s => if (s =? "")%string then JNull else JStr s
  | None => JNull
  end.

(** An inbound request.  [body] is [None] when the platform hands over no
    parsed body ([req.body] is undefined or null); a body that is not a JSON
    object has no fields. *)
Record request : Type := {
  method : string;
  pathname : string;
  protocol : string;
  host : string;
  body : option fields
}.

Inductive payload : Type :=
| Json (o : fields)      (* res.json(o) *)
| Html                   (* res.send(page): the dashboard page *)
| NoBody.                (* res.end() *)

Record response : Type := { status : Z; content : payload }.

(** The field [k] of a JSON response ([None] for a page or a missing field). *)
Definition json_field (k : string) (r : response) : option jsval :=
  match content r with
  | Json o => field k o
  | _ => None
  end.

(** ** The protocol layer, the clock and the file system *)

Record wa_user : Type := { id : string; name : option string }.

(** The session handle returned by [makeWASocket]: the identity the library
    exposes on it and its enumerable properties (what [...sock] spreads). *)
Record socket : Type := { user : option wa_user; own_props : fields }.

(** [sock?.user?.id ? sock.user.id.split(':')[0] : null] *)
Definition botNumber (s : option socket) : jsval :=
  match s with
  | Some {| user := Some u |} =>
      if (id u =? "")%string then JNull else JStr (before_colon (id u))
  | _ => JNull
  end.

(** [sock?.user?.name || null] *)
Definition botName (s : option socket) : jsval :=
  match s with
  | Some {| user := Some u |} => str_or_null (name u)
  | _ => JNull
  end.

Inductive connection : Type := Close | Open | Connecting.

(** A [connection.update] event: [connection], the status code at
    [lastDisconnect?.error?.output?.statusCode], [qr], and the clock reading
    when it is delivered. *)
Record update : Type := {
  conn : option connection;
  statusCode : option Z;
  qr : option string;
  at_time : Z
}.

(** Constants and pure helpers of the libraries the source imports:
    [DisconnectReason.loggedOut] of the protocol client and
    [qrcode.toDataURL]. *)
Class Library : Type := {
  loggedOut : Z;
  toDataURL : string -> string
}.

(** [statusCode === DisconnectReason.loggedOut] *)
Definition is_loggedOut `{Library} (c : option Z) : bool :=
  match c with
  | Some n => n =? loggedOut
  | None => false
  end.

(** Everything the code does to the outside, in program order. *)
Inductive effect : Type :=
| EMakeSocket (auth : list string)  (* makeWASocket, with the stored keys it is given *)
| EEnd                              (* sock.end() *)
| EOnWhatsApp (jid : string)        (* sock.onWhatsApp(jid) *)
| ESendMessage (jid : string) (text : jsval) (* sock.sendMessage(jid, { text }) *)
| ESetTimeout (delay : Z)           (* setTimeout(() => <connect>(), delay) *)
| EReaddir                          (* fs.readdirSync(authFolder) *)
| EUnlink (file : string).          (* fs.unlinkSync(join(authFolder, file)) *)

Definition is_send (e : effect) : bool :=
  match e with
  | EOnWhatsApp _ | ESendMessage _ _ => true
  | _ => false
  end.

Definition is_make (e : effect) : bool :=
  match e with EMakeSocket _ => true | _ => false end.

Definition is_timer (e : effect) : bool :=
  match e with ESetTimeout _ => true | _ => false end.

Definition is_readdir (e : effect) : bool :=
  match e with EReaddir => true | _ => false end.

Definition count (p : effect -> bool) (t : list effect) : nat :=
  length (filter p t).

(** A call either returns or throws an error with a message. *)
Inductive outcome (A : Type) : Type :=
| Returns (a : A)
| Throws (msg : string).
Arguments Returns {A} a.
Arguments Throws {A} msg.

(** What the outside answers during one request. *)
Record env : Type := {
  now : Z;                         (* Date.now() *)
  iso_now : string;                (* new Date().toISOString() *)
  uptime : Z;                      (* Math.floor(process.uptime()) *)
  made : outcome socket;           (* the version fetch, the loading of the
                                      auth state and makeWASocket: the new
                                      handle, or the first error *)
  events : list update;            (* the updates delivered while a caller
                                      awaits the connect promise *)
  onWhatsApp : string -> outcome bool;   (* is the first result truthy *)
  sendMessage : string -> jsval -> outcome string; (* result.key.id *)
  sent_at : Z                      (* Date.now() once the message is sent *)
}.

(** ** A credential folder on disk *)

(** A directory entry; [unlink_error] is the error [unlinkSync] raises on
    it, if any. *)
Record file : Type := {
  fname : string;
  fdata : string;
  unlink_error : option string
}.

Inductive folder : Type :=
| NoDir (err : string)     (* readdirSync throws *)
| Dir (files : list file).

Definition stored_files (d : folder) : list string :=
  match d with
  | NoDir _ => []
  | Dir fs => map fname fs
  end.

(** [files.forEach(file => fs.unlinkSync(join(authFolder, file)))]: stops at
    the first entry that cannot be removed. *)
Fixpoint unlink_files (fs : list file) : outcome unit * list file * list effect :=
  match fs with
  | [] => (Returns tt, [], [])
  | f :: r =>
      match unlink_error f with
      | Some msg => (Throws msg, f :: r, [EUnlink (fname f)])
      | None =>
          let '(o, r', t) := unlink_files r in (o, r', EUnlink (fname f) :: t)
      end
  end.

(** [const files = fs.readdirSync(authFolder); files.forEach(...)] *)
Definition remove_auth_files (d : folder) : outcome unit * folder * list effect :=
  match d with
  | NoDir msg => (Throws msg, d, [EReaddir])
  | Dir fs =>
      let '(o, fs', t) := unlink_files fs in (o, Dir fs', EReaddir :: t)
  end.

(** ** State, exceptions and trace threaded through the code *)

Definition M (S A : Type) : Type := S -> outcome A * S * list effect.

Definition ret {S A} (a : A) : M S A := fun s => (Returns a, s, []).

Definition throw {S A} (msg : string) : M S A := fun s => (Throws msg, s, []).

Definition bind {S A B} (m : M S A) (k : A -> M S B) : M S B :=
  fun s =>
    match m s with
    | (Returns a, s1, t1) => let '(r, s2, t2) := k a s1 in (r, s2, (t1 ++ t2)%list)
    | (Throws msg, s1, t1) => (Throws msg, s1, t1)
    end.

(** [try { m } catch (error) { h error.message }] *)
Definition try_catch {S A} (m : M S A) (h : string -> M S A) : M S A :=
  fun s =>
    match m s with
    | (Returns a, s1, t1) => (Returns a, s1, t1)
    | (Throws msg, s1, t1) => let '(r, s2, t2) := h msg s1 in (r, s2, (t1 ++ t2)%list)
    end.

Definition get {S} : M S S := fun s => (Returns s, s, []).

Definition modify {S} (f : S -> S) : M S unit := fun s => (Returns tt, f s, []).

Definition emit {S} (e : effect) : M S unit := fun s => (Returns tt, s, [e]).

Definition lift_outcome {S A} (o : outcome A) : M S A :=
  match o with
  | Returns a => ret a
  | Throws msg => throw msg
  end.

Definition when {S} (b : bool) (m : M S unit) : M S unit :=
  if b then m else ret tt.

Notation "x <- m ;; k" := (bind m (fun x => k))
  (at level 61, m at next level, right associativity).
Notation "m ;;; k" := (bind m (fun _ => k))
  (at level 61, right associativity).

(** Messages of the TypeErrors the handlers can raise themselves. *)
Definition destructure_error : string :=
  "Cannot destructure property 'phone' of 'req.body' as it is undefined.".
Definition replace_error : string := "phone.replace is not a function".
Definition user_error : string :=
  "Cannot read properties of undefined (reading 'id')".

(** [formatPhoneNumber(phone)] on a request field: only a string has
    [replace]. *)
Definition formatPhone {S} (phone : jsval) : M S string :=
  match phone with
  | JStr s => ret (formatPhoneNumber s)
  | _ => throw replace_error
  end.

Definition respond (code : Z) (o : fields) : response :=
  {| status := code; content := Json o |}.

(** [{ ...o, k: v }]: a key written twice keeps its place and takes the
    later value. *)
Fixpoint set_field (k : string) (v : jsval) (o : fields) : fields :=
  match o with
  | [] => [(k, v)]
  | (k', v') :: r =>
      if (k' =? k)%string then (k, v) :: r else (k', v') :: set_field k v r
  end.

(** [{ ...o, ...extra }] *)
Definition spread (o extra : fields) : fields :=
  fold_left (fun acc kv => set_field (fst kv) (snd kv) acc) extra o.

(** The outermost [try { ... } catch (error) { res.status(500).json(...) }]
    of a handler. *)
Definition error_500 (msg : string) : response :=
  respond 500 [("success", JBool false); ("error", JStr msg)].

Definition finish {S} (m : M S response) (s : S) : response * S * list effect :=
  match m s with
  | (Returns r, s1, t) => (r, s1, t)
  | (Throws msg, s1, t) => (error_500 msg, s1, t)
  end.

Definition is_some {A} (o : option A) : bool :=
  match o with Some _ => true | None => false end.

(** * The Tmp variant (src/unnamed/part_000) *)

Module Tmp.

Record state : Type := {
  sock : option socket;
  qrCode : option string;
  isConnected : bool;
  lastActivity : Z;
  authFolder : folder
}.

Definition CONNECTION_TIMEOUT : Z := 5 * 60 * 1000.

(** The globals once the module is loaded at clock reading [t0]; the folder
    exists by then, with the files [fs] left by earlier runs. *)
Definition initial (t0 : Z) (fs : list file) : state :=
  {| sock := None; qrCode := None; isConnected := false;
     lastActivity := t0; authFolder := Dir fs |}.

Definition set_sock (v : option socket) (st : state) : state :=
  {| sock := v; qrCode := qrCode st; isConnected := isConnected st;
     lastActivity := lastActivity st; authFolder := authFolder st |}.

Definition set_qrCode (v : option string) (st : state) : state :=
  {| sock := sock st; qrCode := v; isConnected := isConnected st;
     lastActivity := lastActivity st; authFolder := authFolder st |}.

Definition set_isConnected (v : bool) (st : state) : state :=
  {| sock := sock st; qrCode := qrCode st; isConnected := v;
     lastActivity := lastActivity st; authFolder := authFolder st |}.

Definition set_lastActivity (v : Z) (st : state) : state :=
  {| sock := sock st; qrCode := qrCode st; isConnected := isConnected st;
     lastActivity := v; authFolder := authFolder st |}.

Definition set_authFolder (v : folder) (st : state) : state :=
  {| sock := sock st; qrCode := qrCode st; isConnected := isConnected st;
     lastActivity := lastActivity st; authFolder := v |}.

(** [fs.readdirSync(authFolder)] and the [unlinkSync] of every entry. *)
Definition remove_files : M state unit :=
  fun st =>
    let '(o, d, t) := remove_auth_files (authFolder st) in
    (o, set_authFolder d st, t).

(** What [connectToWhatsApp] resolves with. *)
Inductive connected : Type :=
| RSock (s : socket)      (* return sock *)
| RQr (q : string)        (* resolve({ qr, needsScan: true }) *)
| ROpen.                  (* resolve({ connected: true }) *)

Definition result_fields (r : connected) : fields :=
  match r with
  | RSock s => own_props s
  | RQr q => [("qr", JStr q); ("needsScan", JBool true)]
  | ROpen => [("connected", JBool true)]
  end.

Inductive settlement : Type :=
| Resolve (r : connected)
| Reject (msg : string).

(** A promise keeps its first settlement. *)
Definition first_settled (a b : option settlement) : option settlement :=
  match a with Some _ => a | None => b end.

(** The [connection.update] listener; the result is what it settles the
    promise of its [connectToWhatsApp] call with, if anything. *)
Definition connection_update `{Library} (u : update) : M state (option settlement) :=
  s1 <- (match qr u with
         | Some q =>
             if truthy_str (Some q) then
               modify (set_qrCode (Some q)) ;;;
               ret (Some (Resolve (RQr q)))
             else ret None
         | None => ret None
         end) ;;
  s2 <- (match conn u with
         | Some Close =>
             modify (set_isConnected false) ;;;
             when (is_loggedOut (statusCode u))
               (modify (set_qrCode None) ;;;
                try_catch remove_files (fun _ => ret tt)) ;;;
             ret (Some (Reject "Connection closed"))
         | _ => ret None
         end) ;;
  s3 <- (match conn u with
         | Some Open =>
             modify (set_isConnected true) ;;;
             modify (set_qrCode None) ;;;
             modify (set_lastActivity (at_time u)) ;;;
             ret (Some (Resolve ROpen))
         | _ => ret None
         end) ;;
  ret (first_settled s1 (first_settled s2 s3)).

(** The promise of [connectToWhatsApp]: the updates are handled in turn
    until one settles it; when none does, the 45 s timer rejects.  That
    timer ([setTimeout(() => reject(...), 45000)]) calls no connect function
    and is not recorded as an [ESetTimeout]: the list of updates ends where
    it fires. *)
Fixpoint await_settled `{Library} (us : list update) : M state connected :=
  match us with
  | [] => throw "Connection timeout"
  | u :: r =>
      s <- connection_update u ;;
      match s with
      | Some (Resolve c) => ret c
      | Some (Reject msg) => throw msg
      | None => await_settled r
      end
  end.

Definition connect_new `{Library} (e : env) : M state connected :=
  s <- lift_outcome (made e) ;;
  st <- get ;;
  emit (EMakeSocket (stored_files (authFolder st))) ;;;
  modify (set_sock (Some s)) ;;;
  await_settled (events e).

Definition connectToWhatsApp `{Library} (e : env) : M state connected :=
  st <- get ;;
  match sock st with
  | Some s =>
      if isConnected st then
        modify (set_lastActivity (now e)) ;;; ret (RSock s)
      else connect_new e
  | None => connect_new e
  end.

Definition keepAlive (e : env) : M state unit :=
  st <- get ;;
  when (is_some (sock st) && isConnected st)
    (let inactive := now e - lastActivity st in
     when (inactive >? CONNECTION_TIMEOUT)
       (emit EEnd ;;;
        modify (set_sock None) ;;;
        modify (set_isConnected false))).

Definition route_status (e : env) : M state response :=
  st <- get ;;
  ret (respond 200
         [("connected", JBool (isConnected st));
          ("qrAvailable", JBool (truthy_str (qrCode st)));
          ("botNumber", botNumber (sock st));
          ("lastActivity", JNum (lastActivity st));
          ("timestamp", JStr (iso_now e))]).

Definition route_connect `{Library} (e : env) : M state response :=
  try_catch
    (result <- connectToWhatsApp e ;;
     ret (respond 200 (spread [("success", JBool true)] (result_fields result))))
    (fun msg => ret (error_500 msg)).

Definition route_qr `{Library} (e : env) : M state response :=
  st <- get ;;
  if isConnected st then
    ret (respond 200 [("success", JBool false);
                      ("message", JStr "Already connected")])
  else
    when (negb (truthy_str (qrCode st)))
      (try_catch (connectToWhatsApp e ;;; ret tt) (fun _ => ret tt)) ;;;
    st' <- get ;;
    match qrCode st' with
    | Some q =>
        if truthy_str (Some q) then
          ret (respond 200 [("success", JBool true); ("qr", JStr q);
                            ("message", JStr "Scan this QR code with WhatsApp")])
        else
          ret (respond 503 [("success", JBool false);
                            ("message", JStr "QR code not available yet. Try /api/connect first")])
    | None =>
        ret (respond 503 [("success", JBool false);
                          ("message", JStr "QR code not available yet. Try /api/connect first")])
    end.

Definition route_send (e : env) (req : request) : M state response :=
  b <- (match body req with
        | Some b => ret b
        | None => throw destructure_error
        end) ;;
  let phone := prop "phone" b in
  let message := prop "message" b in
  if negb (truthy phone) || negb (truthy message) then
    ret (respond 400 [("success", JBool false);
                      ("error", JStr "Phone and message are required")])
  else
    st <- get ;;
    if negb (isConnected st) || negb (is_some (sock st)) then
      ret (respond 503 [("success", JBool false);
                        ("error", JStr "Bot not connected. Get QR code at /api/qr")])
    else
      try_catch
        (formattedPhone <- formatPhone phone ;;
         let jid := formattedPhone ++ "@s.whatsapp.net" in
         emit (EOnWhatsApp jid) ;;;
         exists_ <- lift_outcome (onWhatsApp e jid) ;;
         if negb exists_ then
           ret (respond 404 [("success", JBool false);
                             ("error", JStr "Phone number not registered on WhatsApp")])
         else
           emit (ESendMessage jid message) ;;;
           messageId <- lift_outcome (sendMessage e jid message) ;;
           modify (set_lastActivity (sent_at e)) ;;;
           ret (respond 200 [("success", JBool true);
                             ("message", JStr "Message sent successfully");
                             ("to", JStr formattedPhone);
                             ("messageId", JStr messageId)]))
        (fun msg => ret (error_500 msg)).

Definition route_clear : M state response :=
  try_catch
    (st <- get ;;
     when (is_some (sock st)) (emit EEnd ;;; modify (set_sock None)) ;;;
     modify (set_isConnected false) ;;;
     modify (set_qrCode None) ;;;
     remove_files ;;;
     ret (respond 200 [("success", JBool true);
                       ("message", JStr "Auth cleared successfully")]))
    (fun msg => ret (error_500 msg)).

Definition not_found : response :=
  respond 404
    [("error", JStr "Endpoint not found");
     ("available", JArr [JStr "/api/status"; JStr "/api/qr"; JStr "/api/connect";
                         JStr "/api/send"; JStr "/api/clear"])].

Definition routes `{Library} (e : env) (req : request) : M state response :=
  let path := pathname req in
  let post := (method req =? "POST")%string in
  if (path =? "/")%string || (path =? "/api")%string then
    ret {| status := 200; content := Html |}
  else if (path =? "/api/status")%string then route_status e
  else if (path =? "/api/connect")%string && post then route_connect e
  else if (path =? "/api/qr")%string then route_qr e
  else if (path =? "/api/send")%string && post then route_send e req
  else if (path =? "/api/clear")%string && post then route_clear
  else ret not_found.

(** The exported handler: CORS preflight, [keepAlive()], then the routes
    under the outer [try]. *)
Definition handler `{Library} (e : env) (req : request) (st : state)
  : response * state * list effect :=
  if (method req =? "OPTIONS")%string then
    ({| status := 200; content := NoBody |}, st, [])
  else
    finish (keepAlive e ;;; routes e req) st.

End Tmp.

(** * The Express variant (src/api/index.js, second module) *)

Module Express.

Record state : Type := {
  sock : option socket;
  qrGenerated : bool;
  isConnected : bool;
  currentQR : option string;
  connectionAttempts : Z;
  authFolder : folder
}.

Definition MAX_RETRY_ATTEMPTS : Z := 3.

(** The globals once the module is loaded, before the server listens. *)
Definition initial (fs : list file) : state :=
  {| sock := None; qrGenerated := false; isConnected := false;
     currentQR := None; connectionAttempts := 0; authFolder := Dir fs |}.

Definition set_sock (v : option socket) (st : state) : state :=
  {| sock := v; qrGenerated := qrGenerated st; isConnected := isConnected st;
     currentQR := currentQR st; connectionAttempts := connectionAttempts st;
     authFolder := authFolder st |}.

Definition set_qrGenerated (v : bool) (st : state) : state :=
  {| sock := sock st; qrGenerated := v; isConnected := isConnected st;
     currentQR := currentQR st; connectionAttempts := connectionAttempts st;
     authFolder := authFolder st |}.

Definition set_isConnected (v : bool) (st : state) : state :=
  {| sock := sock st; qrGenerated := qrGenerated st; isConnected := v;
     currentQR := currentQR st; connectionAttempts := connectionAttempts st;
     authFolder := authFolder st |}.

Definition set_currentQR (v : option string) (st : state) : state :=
  {| sock := sock st; qrGenerated := qrGenerated st; isConnected := isConnected st;
     currentQR := v; connectionAttempts := connectionAttempts st;
     authFolder := authFolder st |}.

Definition set_connectionAttempts (v : Z) (st : state) : state :=
  {| sock := sock st; qrGenerated := qrGenerated st; isConnected := isConnected st;
     currentQR := currentQR st; connectionAttempts := v;
     authFolder := authFolder st |}.

Definition set_authFolder (v : folder) (st : state) : state :=
  {| sock := sock st; qrGenerated := qrGenerated st; isConnected := isConnected st;
     currentQR := currentQR st; connectionAttempts := connectionAttempts st;
     authFolder := v |}.

(** [fs.readdirSync(authFolder)] and the [unlinkSync] of every entry. *)
Definition remove_files : M state unit :=
  fun st =>
    let '(o, d, t) := remove_auth_files (authFolder st) in
    (o, set_authFolder d st, t).

(** [connectToWhatsApp]: it never throws; an error inside schedules a retry
    while attempts remain. *)
Definition connectToWhatsApp (e : env) : M state unit :=
  modify (fun st => set_connectionAttempts (connectionAttempts st + 1) st) ;;;
  try_catch
    (s <- lift_outcome (made e) ;;
     st <- get ;;
     emit (EMakeSocket (stored_files (authFolder st))) ;;;
     modify (set_sock (Some s)))
    (fun _ =>
       st <- get ;;
       if connectionAttempts st <? MAX_RETRY_ATTEMPTS then
         emit (ESetTimeout 10000)
       else
         modify (set_connectionAttempts 0)).

(** The [connection.update] listener.  It throws (an unhandled rejection of
    the listener) when [open] arrives while [sock.user] cannot be read. *)
Definition connection_update `{Library} (u : update) : M state unit :=
  when (truthy_str (qr u))
    (modify (set_currentQR (qr u)) ;;;
     modify (set_qrGenerated true) ;;;
     modify (set_isConnected false) ;;;
     modify (set_connectionAttempts 0)) ;;;
  match conn u with
  | Some Close =>
      let shouldReconnect := negb (is_loggedOut (statusCode u)) in
      modify (set_isConnected false) ;;;
      when (is_loggedOut (statusCode u))
        (modify (set_currentQR None) ;;;
         modify (set_qrGenerated false) ;;;
         try_catch remove_files (fun _ => ret tt)) ;;;
      when shouldReconnect
        (st <- get ;;
         if connectionAttempts st <? MAX_RETRY_ATTEMPTS then
           let delay := Z.min (5000 * connectionAttempts st) 15000 in
           emit (ESetTimeout delay)
         else
           modify (set_connectionAttempts 0) ;;;
           try_catch
             (remove_files ;;; emit (ESetTimeout 5000))
             (fun _ => ret tt))
  | Some Open =>
      st <- get ;;
      match sock st with
      | Some {| user := Some _ |} =>
          modify (set_currentQR None) ;;;
          modify (set_qrGenerated false) ;;;
          modify (set_isConnected true) ;;;
          modify (set_connectionAttempts 0)
      | _ => throw user_error
      end
  | Some Connecting => ret tt
  | None => ret tt
  end.

(** [app.post('/clear-auth')] *)
Definition clear_auth : M state response :=
  try_catch
    (remove_files ;;;
     modify (set_currentQR None) ;;;
     modify (set_qrGenerated false) ;;;
     modify (set_isConnected false) ;;;
     modify (set_connectionAttempts 0) ;;;
     st <- get ;;
     when (is_some (sock st)) (emit EEnd ;;; modify (set_sock None)) ;;;
     emit (ESetTimeout 2000) ;;;
     ret (respond 200 [("success", JBool true);
                       ("message", JStr "Auth cleared. Reconnecting...")]))
    (fun msg => ret (error_500 msg)).

(** [app.get('/qr')] *)
Definition get_qr : M state response :=
  st <- get ;;
  match currentQR st with
  | Some q =>
      if truthy_str (Some q) then
        ret (respond 200 [("success", JBool true); ("qr", JStr q);
                          ("message", JStr "Scan this QR code with WhatsApp");
                          ("length", JNum (Z.of_nat (String.length q)))])
      else
        ret (respond 200
               [("success", JBool false);
                ("message", JStr (if isConnected st then "Already connected"
                                  else "QR not available yet"));
                ("connected", JBool (isConnected st))])
  | None =>
      ret (respond 200
             [("success", JBool false);
              ("message", JStr (if isConnected st then "Already connected"
                                else "QR not available yet"));
              ("connected", JBool (isConnected st))])
  end.

(** [app.post('/send-message')]; [express.json()] leaves an empty object
    when there is no parsed body. *)
Definition send_message (e : env) (req : request) : M state response :=
  let b := match body req with Some b => b | None => [] end in
  let phone := prop "phone" b in
  let message := prop "message" b in
  if negb (truthy phone) || negb (truthy message) then
    ret (respond 400 [("success", JBool false);
                      ("error", JStr "Phone and message are required")])
  else
    st <- get ;;
    if negb (isConnected st) || negb (is_some (sock st)) then
      ret (respond 503
             [("success", JBool false);
              ("error", JStr "WhatsApp bot is not connected");
              ("hint", JStr ("Please scan QR code first at "
                             ++ protocol req ++ "://" ++ host req))])
    else
      try_catch
        (formattedPhone <- formatPhone phone ;;
         let jid := formattedPhone ++ "@s.whatsapp.net" in
         emit (EOnWhatsApp jid) ;;;
         exists_ <- lift_outcome (onWhatsApp e jid) ;;
         if negb exists_ then
           ret (respond 404 [("success", JBool false);
                             ("error", JStr "Phone number not registered on WhatsApp");
                             ("phone", JStr formattedPhone)])
         else
           emit (ESendMessage jid message) ;;;
           messageId <- lift_outcome (sendMessage e jid message) ;;
           ret (respond 200 [("success", JBool true);
                             ("message", JStr "Message sent successfully");
                             ("to", JStr formattedPhone);
                             ("messageId", JStr messageId);
                             ("timestamp", JStr (iso_now e))]))
        (fun msg => ret (error_500 msg)).

(** [app.get('/status')] *)
Definition get_status (e : env) : M state response :=
  st <- get ;;
  ret (respond 200
         [("connected", JBool (isConnected st));
          ("status", JStr (if isConnected st then "connected" else "disconnected"));
          ("qrRequired", JBool (qrGenerated st));
          ("qrAvailable", JBool (truthy_str (currentQR st)));
          ("botNumber", botNumber (sock st));
          ("botName", botName (sock st));
          ("uptime", JNum (uptime e));
          ("connectionAttempts", JNum (connectionAttempts st));
          ("maxAttempts", JNum MAX_RETRY_ATTEMPTS);
          ("timestamp", JStr (iso_now e))]).

(** [app.get('/health')] *)
Definition get_health (e : env) : M state response :=
  st <- get ;;
  ret (respond 200 [("status", JStr "ok"); ("service", JStr "whatsapp-bot");
                    ("connected", JBool (isConnected st));
                    ("timestamp", JStr (iso_now e))]).

(** The router, at the paths and methods as they are registered, in the
    order they are registered; a request that matches none gets the
    framework's 404 page.  What the framework itself adds to the matching
    (it folds letter case, lets a trailing slash pass and answers OPTIONS
    on its own) is not part of this definition: a request whose path is not
    spelled as registered is outside it. *)
Definition app (e : env) (req : request) (st : state)
  : response * state * list effect :=
  let path := pathname req in
  let is_get := (method req =? "GET")%string || (method req =? "HEAD")%string in
  let post := (method req =? "POST")%string in
  if (path =? "/")%string && is_get then
    ({| status := 200; content := Html |}, st, [])
  else if (path =? "/clear-auth")%string && post then finish clear_auth st
  else if (path =? "/qr")%string && is_get then finish get_qr st
  else if (path =? "/send-message")%string && post then finish (send_message e req) st
  else if (path =? "/status")%string && is_get then finish (get_status e) st
  else if (path =? "/health")%string && is_get then finish (get_health e) st
  else ({| status := 404; content := Html |}, st, []).

End Express.

(** * The Mongo variant (src/api/index.js, first module) *)

Module Mongo.

(** A document of the [auth_state] collection. *)
Record doc : Type := { key : string; data : string; updatedAt : Z }.

(** The session globals and the collection ([cachedDb], the cached database
    handle, is no part of the session and is left out). *)
Record state : Type := {
  sock : option socket;
  qrCodeData : option string;
  isConnected : bool;
  auth_state : list doc
}.

Definition initial (docs : list doc) : state :=
  {| sock := None; qrCodeData := None; isConnected := false;
     auth_state := docs |}.

Definition set_sock (v : option socket) (st : state) : state :=
  {| sock := v; qrCodeData := qrCodeData st; isConnected := isConnected st;
     auth_state := auth_state st |}.

Definition set_qrCodeData (v : option string) (st : state) : state :=
  {| sock := sock st; qrCodeData := v; isConnected := isConnected st;
     auth_state := auth_state st |}.

Definition set_isConnected (v : bool) (st : state) : state :=
  {| sock := sock st; qrCodeData := qrCodeData st; isConnected := v;
     auth_state := auth_state st |}.

(** [collection.updateOne({ key }, { $set: ... }, { upsert: true })] *)
Fixpoint writeData (t : Z) (d k : string) (c : list doc) : list doc :=
  match c with
  | [] => [{| key := k; data := d; updatedAt := t |}]
  | x :: r =>
      if (key x =? k)%string then {| key := k; data := d; updatedAt := t |} :: r
      else x :: writeData t d k r
  end.

(** [collection.findOne({ key })], then [doc ? doc.data : null] *)
Definition readData (k : string) (c : list doc) : option string :=
  option_map data (find (fun x => (key x =? k)%string) c).

(** [collection.deleteOne({ key })] *)
Fixpoint removeData (k : string) (c : list doc) : list doc :=
  match c with
  | [] => []
  | x :: r => if (key x =? k)%string then r else x :: removeData k r
  end.

Definition initWhatsApp_new (e : env) : M state socket :=
  s <- lift_outcome (made e) ;;
  st <- get ;;
  emit (EMakeSocket (map key (auth_state st))) ;;;
  modify (set_sock (Some s)) ;;;
  ret s.

Definition initWhatsApp (e : env) : M state socket :=
  st <- get ;;
  match sock st with
  | Some s => if isConnected st then ret s else initWhatsApp_new e
  | None => initWhatsApp_new e
  end.

(** The [connection.update] listener. *)
Definition connection_update `{Library} (u : update) : M state unit :=
  match qr u with
  | Some q =>
      when (truthy_str (Some q)) (modify (set_qrCodeData (Some (toDataURL q))))
  | None => ret tt
  end ;;;
  match conn u with
  | Some Close =>
      let shouldReconnect := negb (is_loggedOut (statusCode u)) in
      modify (set_isConnected false) ;;;
      modify (set_sock None) ;;;
      when shouldReconnect (emit (ESetTimeout 5000))
  | Some Open =>
      modify (set_isConnected true) ;;;
      modify (set_qrCodeData None)
  | Some Connecting => ret tt
  | None => ret tt
  end.

Definition route_qr (e : env) : M state response :=
  st <- get ;;
  when (negb (is_some (sock st)) || negb (isConnected st))
    (initWhatsApp e ;;; ret tt) ;;;
  st' <- get ;;
  if truthy_str (qrCodeData st') then
    ret (respond 200 [("success", JBool true);
                      ("qr", str_or_null (qrCodeData st'));
                      ("message", JStr "Scan this QR code with WhatsApp")])
  else if isConnected st' then
    ret (respond 200 [("success", JBool false);
                      ("message", JStr "Already connected");
                      ("connected", JBool true)])
  else
    ret (respond 200 [("success", JBool false);
                      ("message", JStr "QR not available yet, please wait...");
                      ("connected", JBool false)]).

Definition route_status (e : env) : M state response :=
  st <- get ;;
  ret (respond 200
         [("status", JStr (if isConnected st then "connected" else "disconnected"));
          ("qrRequired", JBool (negb (isConnected st) && negb (truthy_str (qrCodeData st))));
          ("qrAvailable", JBool (truthy_str (qrCodeData st)));
          ("botNumber", botNumber (sock st));
          ("timestamp", JStr (iso_now e))]).

Definition route_send (e : env) (req : request) : M state response :=
  b <- (match body req with
        | Some b => ret b
        | None => throw destructure_error
        end) ;;
  let phone := prop "phone" b in
  let message := prop "message" b in
  if negb (truthy phone) || negb (truthy message) then
    ret (respond 400 [("success", JBool false);
                      ("error", JStr "Phone and message are required")])
  else
    st <- get ;;
    stop <- (if negb (isConnected st) || negb (is_some (sock st)) then
               initWhatsApp e ;;;
               st' <- get ;;
               ret (negb (isConnected st'))
             else ret false) ;;
    if stop : bool then
      ret (respond 503 [("success", JBool false);
                        ("error", JStr "WhatsApp bot is not connected");
                        ("hint", JStr "Please scan QR code first")])
    else
      formattedPhone <- formatPhone phone ;;
      let jid := formattedPhone ++ "@s.whatsapp.net" in
      emit (EOnWhatsApp jid) ;;;
      exists_ <- lift_outcome (onWhatsApp e jid) ;;
      if negb exists_ then
        ret (respond 404 [("success", JBool false);
                          ("error", JStr "Phone number not registered on WhatsApp");
                          ("phone", JStr formattedPhone)])
      else
        emit (ESendMessage jid message) ;;;
        messageId <- lift_outcome (sendMessage e jid message) ;;
        ret (respond 200 [("success", JBool true);
                          ("message", JStr "Message sent successfully");
                          ("to", JStr formattedPhone);
                          ("messageId", JStr messageId);
                          ("timestamp", JStr (iso_now e))]).

Definition route_health (e : env) : M state response :=
  st <- get ;;
  ret (respond 200 [("status", JStr "ok");
                    ("service", JStr "whatsapp-bot-vercel");
                    ("connected", JBool (isConnected st));
                    ("timestamp", JStr (iso_now e))]).

Definition not_found : response :=
  respond 404 [("success", JBool false); ("error", JStr "Endpoint not found")].

Definition routes (e : env) (req : request) : M state response :=
  let path := pathname req in
  let is_get := (method req =? "GET")%string in
  let post := (method req =? "POST")%string in
  if (path =? "/")%string && is_get then
    ret {| status := 200; content := Html |}
  else if (path =? "/qr")%string && is_get then route_qr e
  else if (path =? "/status")%string && is_get then route_status e
  else if (path =? "/send-message")%string && post then route_send e req
  else if (path =? "/health")%string && is_get then route_health e
  else ret not_found.

(** The exported handler: CORS preflight, then the routes under [try]. *)
Definition handler (e : env) (req : request) (st : state)
  : response * state * list effect :=
  if (method req =? "OPTIONS")%string then
    ({| status := 200; content := NoBody |}, st, [])
  else
    finish (routes e req) st.

End Mongo.

(** * The key store handed to the protocol client (Mongo variant) *)

Module MongoAuth.

(** [`${type}-${id}`] *)
Definition key_of (type id : string) : string := type ++ "-" ++ id.

(** [state.keys.get(type, ids)]: the stored values of the ids that have a
    truthy one, as an object keyed by id.  A stored value is kept as a
    string, the empty one standing for a falsy value. *)
Fixpoint keys_get_from (type : string) (ids : list string) (c : list Mongo.doc)
    (data : fields) : fields :=
  match ids with
  | [] => data
  | id :: r =>
      let value := Mongo.readData (key_of type id) c in
      keys_get_from type r c
        (if truthy_str value then set_field id (str_or_null value) data
         else data)
  end.

Definition keys_get (type : string) (ids : list string) (c : list Mongo.doc)
  : fields :=
  keys_get_from type ids c [].

(** The inner loop of [state.keys.set]: [for (const id in data[category])]. *)
Fixpoint set_category (t : Z) (category : string)
    (entries : list (string * string)) (c : list Mongo.doc) : list Mongo.doc :=
  match entries with
  | [] => c
  | (id, v) :: r =>
      set_category t category r (Mongo.writeData t v (key_of category id) c)
  end.

(** [state.keys.set(data)]: [for (const category in data)]. *)
Fixpoint keys_set (t : Z) (data : list (string * list (string * string)))
    (c : list Mongo.doc) : list Mongo.doc :=
  match data with
  | [] => c
  | (category, entries) :: r => keys_set t r (set_category t category entries c)
  end.

End MongoAuth.

(** An update that settles nothing in the Tmp variant: no pairing code and
    neither [close] nor [open]. *)
Definition quiet (u : update) : bool :=
  negb (truthy_str (qr u)) &&
  match conn u with
  | Some Close | Some Open => false
  | Some Connecting | None => true
  end.

(** The pairing flag of the Express variant agrees with the pairing code
    it holds, and neither is set while the connected flag is up. *)
Definition qr_consistent (st : Express.state) : bool :=
  Bool.eqb (Express.qrGenerated st) (truthy_str (Express.currentQR st))
  && negb (Express.isConnected st && Express.qrGenerated st).

Definition is_end (e : effect) : bool :=
  match e with EEnd => true | _ => false end.

(** A computation that keeps the component [f] of the state, and one whose
    trace holds no effect of the kind [p]. *)
Definition keeps {S A X : Type} (f : S -> X) (m : M S A) : Prop :=
  forall s, f (snd (fst (m s))) = f s.

Definition silent {S A : Type} (p : effect -> bool) (m : M S A) : Prop :=
  forall s, count p (snd (m s)) = 0%nat.

(** No code unit of [s] is a colon. *)
Fixpoint no_colon (s : string) : bool :=
  match s with
  | EmptyString => true
  | String c r => (negb (Ascii.eqb c ":") && no_colon r)%bool
  end.

(** One turn of the reconnect cycle of the Express variant as its timers
    drive it: the timer fires and calls [connectToWhatsApp], then the new
    socket reports the update [u]. *)
Definition attempt_then `{Library} (e : env) (u : update) : M Express.state unit :=
  Express.connectToWhatsApp e ;;; Express.connection_update u.

(** [n] times three such turns in a row. *)
Fixpoint rounds `{Library} (n : nat) (e : env) (u : update)
  : M Express.state unit :=
  match n with
  | O => ret tt
  | S k =>
      attempt_then e u ;;; attempt_then e u ;;; attempt_then e u ;;;
      rounds k e u
  end.

(** * Sample inputs *)

(** The protocol client's value of [DisconnectReason.loggedOut], and a
    stand-in for the image encoder. *)
Definition baileys : Library :=
  {| loggedOut := 401; toDataURL := fun q => "data:image/png;base64," ++ q |}.

Definition paired_socket : socket :=
  {| user := Some {| id := "6281234567890:12@s.whatsapp.net"; name := Some "Bot" |};
     own_props := [] |}.

Definition fresh_socket : socket := {| user := None; own_props := [] |}.

(** An outside where everything works: the clock reads [t]. *)
Definition calm (t : Z) : env :=
  {| now := t;
     iso_now := "2024-01-01T00:00:00.000Z";
     uptime := 0;
     made := Returns fresh_socket;
     events := [];
     onWhatsApp := fun _ => Returns true;
     sendMessage := fun _ _ => Returns "3EB0";
     sent_at := t |}.

(** An outside where the connect function fails with [msg]. *)
Definition broken (t : Z) (msg : string) : env :=
  {| now := t;
     iso_now := "2024-01-01T00:00:00.000Z";
     uptime := 0;
     made := Throws msg;
     events := [];
     onWhatsApp := fun _ => Returns true;
     sendMessage := fun _ _ => Returns "3EB0";
     sent_at := t |}.

(** Outsides where the lookup does not know the number, where the lookup
    fails and where the send fails. *)
Definition unknown_number (t : Z) : env :=
  {| now := t; iso_now := "2024-01-01T00:00:00.000Z"; uptime := 0;
     made := Returns fresh_socket; events := [];
     onWhatsApp := fun _ => Returns false;
     sendMessage := fun _ _ => Returns "3EB0"; sent_at := t |}.

Definition failing_lookup (t : Z) (msg : string) : env :=
  {| now := t; iso_now := "2024-01-01T00:00:00.000Z"; uptime := 0;
     made := Returns fresh_socket; events := [];
     onWhatsApp := fun _ => Throws msg;
     sendMessage := fun _ _ => Returns "3EB0"; sent_at := t |}.

Definition failing_send (t : Z) (msg : string) : env :=
  {| now := t; iso_now := "2024-01-01T00:00:00.000Z"; uptime := 0;
     made := Returns fresh_socket; events := [];
     onWhatsApp := fun _ => Returns true;
     sendMessage := fun _ _ => Throws msg; sent_at := t |}.

(** An outside whose new socket sees the updates [us] while the caller
    waits. *)
Definition eventful (t : Z) (us : list update) : env :=
  {| now := t; iso_now := "2024-01-01T00:00:00.000Z"; uptime := 0;
     made := Returns fresh_socket; events := us;
     onWhatsApp := fun _ => Returns true;
     sendMessage := fun _ _ => Returns "3EB0"; sent_at := t |}.

Definition connecting : update :=
  {| conn := Some Connecting; statusCode := None; qr := None; at_time := 0 |}.

Definition get_request (path : string) : request :=
  {| method := "GET"; pathname := path; protocol := "http";
     host := "localhost:3000"; body := None |}.

Definition post_request (path : string) (b : fields) : request :=
  {| method := "POST"; pathname := path; protocol := "http";
     host := "localhost:3000"; body := Some b |}.

(** A POST that arrives without a parsed body. *)
Definition bare_post (path : string) : request :=
  {| method := "POST"; pathname := path; protocol := "http";
     host := "localhost:3000"; body := None |}.

(** The Mongo variant with its flag up and no handle. *)
Definition mongo_flag_up (docs : list Mongo.doc) : Mongo.state :=
  {| Mongo.sock := None; Mongo.qrCodeData := None;
     Mongo.isConnected := true; Mongo.auth_state := docs |}.

Definition hi_body : fields :=
  [("phone", JStr "081234567890"); ("message", JStr "hi")].

Definition creds_file : file :=
  {| fname := "creds.json"; fdata := "{}"; unlink_error := None |}.

Definition stuck_file : file :=
  {| fname := "session-1.json"; fdata := "{}";
     unlink_error := Some "EPERM: operation not permitted, unlink" |}.

Definition creds_doc : Mongo.doc :=
  {| Mongo.key := "creds"; Mongo.data := "{}"; Mongo.updatedAt := 0 |}.

(** A [close] with the logged-out status code, a [close] after a lost
    connection (428), an [open] and a pairing code. *)
Definition logout_close : update :=
  {| conn := Some Close; statusCode := Some 401; qr := None; at_time := 0 |}.

Definition lost_close : update :=
  {| conn := Some Close; statusCode := Some 428; qr := None; at_time := 0 |}.

Definition opened (t : Z) : update :=
  {| conn := Some Open; statusCode := None; qr := None; at_time := t |}.

Definition pairing (q : string) : update :=
  {| conn := None; statusCode := None; qr := Some q; at_time := 0 |}.

(** A connected session in each variant, with stored credentials. *)
Definition tmp_connected (t : Z) (fs : list file) : Tmp.state :=
  {| Tmp.sock := Some paired_socket; Tmp.qrCode := None;
     Tmp.isConnected := true; Tmp.lastActivity := t;
     Tmp.authFolder := Dir fs |}.

Definition express_connected (n : Z) (fs : list file) : Express.state :=
  {| Express.sock := Some paired_socket; Express.qrGenerated := false;
     Express.isConnected := true; Express.currentQR := None;
     Express.connectionAttempts := n; Express.authFolder := Dir fs |}.

Definition mongo_connected (docs : list Mongo.doc) : Mongo.state :=
  {| Mongo.sock := Some paired_socket; Mongo.qrCodeData := None;
     Mongo.isConnected := true; Mongo.auth_state := docs |}.

(** * Properties *)

(** ** formatPhoneNumber *)

Example formatPhoneNumber_local :
  formatPhoneNumber "0812-3456-7890" = "6281234567890".
Proof. reflexivity. Qed.

Example formatPhoneNumber_plus :
  formatPhoneNumber "+62 812 345" = "62812345".
Proof. reflexivity. Qed.

Example formatPhoneNumber_bare :
  formatPhoneNumber "812345" = "62812345".
Proof. reflexivity. Qed.

Example formatPhoneNumber_empty : formatPhoneNumber "" = "62".
Proof. reflexivity. Qed.

Section Strings.

Lemma strip_app (a b : string) :
  strip_non_digits (a ++ b) = strip_non_digits a ++ strip_non_digits b.
Proof.
  induction a as [|c a IH]; simpl; [reflexivity|].
  destruct (is_digit c); simpl; now rewrite IH.
Qed.

Lemma strip_no_digit (s : string) :
  no_digit s = true -> strip_non_digits s = "".
Proof.
  induction s as [|c s IH]; simpl; [reflexivity|].
  destruct (is_digit c); simpl; [discriminate | exact IH].
Qed.

Lemma strip_all_digits (s : string) : all_digits (strip_non_digits s) = true.
Proof.
  induction s as [|c s IH]; simpl; [reflexivity|].
  destruct (is_digit c) eqn:E; simpl; [rewrite E; exact IH | exact IH].
Qed.

Lemma strip_digits_id (s : string) :
  all_digits s = true -> strip_non_digits s = s.
Proof.
  induction s as [|c s IH]; simpl; [reflexivity|].
  destruct (is_digit c); simpl; [intros H; now rewrite IH | discriminate].
Qed.

Lemma startsWith_cons (c : ascii) (r : string) :
  startsWith (String c r) (String c "") = true.
Proof. cbn [startsWith]. now rewrite Ascii.eqb_refl. Qed.

Lemma startsWith_one (s : string) (c : ascii) :
  startsWith s (String c "") = true -> exists r, s = String c r.
Proof.
  destruct s as [|d r]; cbn [startsWith]; [discriminate|].
  rewrite andb_true_r. intros E. apply Ascii.eqb_eq in E. subst d.
  now exists r.
Qed.

Lemma startsWith_62_not_0 (s : string) :
  startsWith s "62" = true -> startsWith s "0" = false.
Proof.
  destruct s as [|d r]; cbn [startsWith]; [discriminate|].
  intros H. apply andb_prop in H. destruct H as [E _].
  apply Ascii.eqb_eq in E. subst d. reflexivity.
Qed.

End Strings.

(** C4. Normalization strips the non-digits; a result that begins with the
    trunk digit 0 has it replaced by 62; a result that begins with neither 0
    nor 62 gets 62 in front; a result that begins with 62 is kept.  In
    particular a destination whose first digit is 0 is normalized like the
    same destination with that 0 replaced by 62. *)
Theorem C4_normalization (phone : string) :
  let digits := strip_non_digits phone in
  (forall rest, digits = String "0" rest ->
                formatPhoneNumber phone = "62" ++ rest) /\
  (startsWith digits "0" = false -> startsWith digits "62" = false ->
   formatPhoneNumber phone = "62" ++ digits) /\
  (startsWith digits "62" = true -> formatPhoneNumber phone = digits) /\
  (forall pre rest, phone = pre ++ String "0" rest -> no_digit pre = true ->
     formatPhoneNumber phone = formatPhoneNumber (pre ++ "62" ++ rest)).
Proof.
  intros digits. unfold formatPhoneNumber. fold digits.
  repeat split.
  - intros rest E. rewrite E, startsWith_cons. reflexivity.
  - intros H0 H62. now rewrite H0, H62.
  - intros H62. now rewrite (startsWith_62_not_0 _ H62), H62.
  - intros pre rest E Hpre. subst digits. rewrite E.
    rewrite !strip_app, (strip_no_digit _ Hpre). simpl.
    change (String "6" (String "2" (strip_non_digits rest)))
      with ("62" ++ strip_non_digits rest).
    reflexivity.
Qed.

Lemma C4_normalization_witness :
  formatPhoneNumber "0812-345" = "62" ++ "812345" /\
  formatPhoneNumber "812 345" = "62" ++ "812345" /\
  formatPhoneNumber "+62 812" = "62812" /\
  formatPhoneNumber "(0812) 345" = formatPhoneNumber ("(" ++ "62" ++ "812) 345").
Proof.
  split; [|split; [|split]].
  - exact (proj1 (C4_normalization "0812-345") "812345" eq_refl).
  - exact (proj1 (proj2 (C4_normalization "812 345")) eq_refl eq_refl).
  - exact (proj1 (proj2 (proj2 (C4_normalization "+62 812"))) eq_refl).
  - exact (proj2 (proj2 (proj2 (C4_normalization "(0812) 345")))
             "(" "812) 345" eq_refl eq_refl).
Defined.

(** C9. The result of formatPhoneNumber holds digits only and begins with
    62; formatting it again changes nothing. *)
Theorem C9_digits_prefix_idempotent (phone : string) :
  all_digits (formatPhoneNumber phone) = true /\
  startsWith (formatPhoneNumber phone) "62" = true /\
  formatPhoneNumber (formatPhoneNumber phone) = formatPhoneNumber phone.
Proof.
  assert (D : all_digits (formatPhoneNumber phone) = true).
  { unfold formatPhoneNumber.
    pose proof (strip_all_digits phone) as Hd.
    destruct (startsWith (strip_non_digits phone) "0") eqn:H0.
    - apply startsWith_one in H0. destruct H0 as [r Hr].
      rewrite Hr in *. simpl in *. exact Hd.
    - destruct (startsWith (strip_non_digits phone) "62"); simpl; exact Hd. }
  assert (P : startsWith (formatPhoneNumber phone) "62" = true).
  { unfold formatPhoneNumber.
    destruct (startsWith (strip_non_digits phone) "0").
    - reflexivity.
    - destruct (startsWith (strip_non_digits phone) "62") eqn:H62; simpl.
      + exact H62.
      + reflexivity. }
  repeat split; [exact D | exact P |].
  unfold formatPhoneNumber at 1.
  rewrite (strip_digits_id _ D), (startsWith_62_not_0 _ P), P.
  reflexivity.
Qed.

(** ** The status route *)

(** C6 (amended). Before any connection attempt the status route of the
    Express and Tmp variants answers connected:false, qrAvailable:false and
    botNumber:null.  The Mongo variant's answer has no [connected] field: it
    carries status:"disconnected", qrRequired:true, qrAvailable:false and
    botNumber:null. *)
Theorem C6_initial_status (L : Library) (e : env) (p h : string) (b : option fields)
    (t0 : Z) (fs : list file) (docs : list Mongo.doc) :
  let rx := fst (fst (Express.app e
              {| method := "GET"; pathname := "/status"; protocol := p;
                 host := h; body := b |} (Express.initial fs))) in
  let rt := fst (fst (Tmp.handler (H := L) e
              {| method := "GET"; pathname := "/api/status"; protocol := p;
                 host := h; body := b |} (Tmp.initial t0 fs))) in
  let rm := fst (fst (Mongo.handler e
              {| method := "GET"; pathname := "/status"; protocol := p;
                 host := h; body := b |} (Mongo.initial docs))) in
  (status rx = 200 /\
   json_field "connected" rx = Some (JBool false) /\
   json_field "qrAvailable" rx = Some (JBool false) /\
   json_field "botNumber" rx = Some JNull) /\
  (status rt = 200 /\
   json_field "connected" rt = Some (JBool false) /\
   json_field "qrAvailable" rt = Some (JBool false) /\
   json_field "botNumber" rt = Some JNull) /\
  (status rm = 200 /\
   json_field "connected" rm = None /\
   json_field "status" rm = Some (JStr "disconnected") /\
   json_field "qrRequired" rm = Some (JBool true) /\
   json_field "qrAvailable" rm = Some (JBool false) /\
   json_field "botNumber" rm = Some JNull).
Proof. cbv zeta. repeat split. Qed.

(** C6, as stated, fails on the Mongo variant: its first status answer has
    no [connected] field. *)
Lemma C6_counterexample :
  json_field "connected"
    (fst (fst (Mongo.handler (calm 0) (get_request "/status") (Mongo.initial []))))
  <> Some (JBool false).
Proof. vm_compute. discriminate. Qed.

Ltac run :=
  cbv [finish bind ret get modify emit when try_catch throw lift_outcome
       respond error_500 is_some].

(** C7 (amended). The status route never makes a socket, and in the Mongo
    and Express variants it leaves the whole state as it is and calls
    nothing.  In the Tmp variant the [keepAlive()] that precedes routing ends
    and drops a connected handle idle for more than CONNECTION_TIMEOUT and
    clears the connected flag; the pairing code, the last-activity stamp and
    the credential folder stay, and without that idle handle nothing
    changes. *)
Theorem C7_status_frame (L : Library) (e : env) (p h : string) (b : option fields) :
  (forall st : Mongo.state,
     let out := Mongo.handler e
                  {| method := "GET"; pathname := "/status"; protocol := p;
                     host := h; body := b |} st in
     snd (fst out) = st /\ snd out = []) /\
  (forall st : Express.state,
     let out := Express.app e
                  {| method := "GET"; pathname := "/status"; protocol := p;
                     host := h; body := b |} st in
     snd (fst out) = st /\ snd out = []) /\
  (forall st : Tmp.state,
     let out := Tmp.handler (H := L) e
                  {| method := "GET"; pathname := "/api/status"; protocol := p;
                     host := h; body := b |} st in
     let st' := snd (fst out) in
     count is_make (snd out) = 0%nat /\
     Tmp.qrCode st' = Tmp.qrCode st /\
     Tmp.lastActivity st' = Tmp.lastActivity st /\
     Tmp.authFolder st' = Tmp.authFolder st /\
     if (is_some (Tmp.sock st) && Tmp.isConnected st
         && (now e - Tmp.lastActivity st >? Tmp.CONNECTION_TIMEOUT))%bool
     then Tmp.sock st' = None /\ Tmp.isConnected st' = false /\ snd out = [EEnd]
     else st' = st /\ snd out = []).
Proof.
  split; [|split].
  - intros st. cbv zeta. split; reflexivity.
  - intros st. cbv zeta. split; reflexivity.
  - intros [s q c l d]. cbv zeta.
    unfold Tmp.handler, Tmp.routes, Tmp.keepAlive, Tmp.route_status. simpl.
    run. simpl.
    destruct s as [s|]; simpl; [|repeat split].
    destruct c; simpl; [|repeat split].
    destruct (now e - l >? Tmp.CONNECTION_TIMEOUT); simpl; repeat split.
Qed.

(** C7, as stated, fails on the Tmp variant: a status request that finds the
    session idle for more than five minutes ends the handle and clears the
    connected flag. *)
Lemma C7_counterexample :
  let st := tmp_connected 0 [creds_file] in
  let out := Tmp.handler (H := baileys) (calm 300001)
               (get_request "/api/status") st in
  snd (fst out) <> st /\
  Tmp.sock (snd (fst out)) = None /\
  Tmp.isConnected (snd (fst out)) = false /\
  snd out = [EEnd].
Proof. vm_compute. repeat split. discriminate. Qed.

(** ** Sending while disconnected *)

(** C1 (amended). A send request that carries a phone and a message, made
    while the connected flag is down (in the Express and Tmp variants: or
    while there is no handle), never reaches the recipient lookup or the
    send and is answered with success:false.  The Express and Tmp variants
    answer 503 at once and change nothing.  The Mongo variant first calls
    initWhatsApp: it answers 503 when that returns, having made a new socket,
    and 500 with the error's message when that throws.  With its flag up and
    no handle the Mongo variant calls initWhatsApp too, and when that
    returns it does not answer 503 but goes on to the recipient lookup on
    the socket just made.  A request whose body lacks a phone or a message
    is answered 400 before the connection is looked at.  A request without
    a parsed body is answered 400 by the Express variant and 500 by the Tmp
    and Mongo variants; nothing is looked up or sent then either. *)
Theorem C1_send_while_disconnected (L : Library) (e : env) (req : request) :
  method req = "POST" ->
  (forall b,
     body req = Some b ->
     truthy (prop "phone" b) = true ->
     truthy (prop "message" b) = true ->
     (forall st : Tmp.state,
        pathname req = "/api/send" ->
        Tmp.isConnected st = false \/ Tmp.sock st = None ->
        let out := Tmp.handler (H := L) e req st in
        status (fst (fst out)) = 503 /\
        json_field "success" (fst (fst out)) = Some (JBool false) /\
        snd (fst out) = st /\ snd out = []) /\
     (forall st : Express.state,
        pathname req = "/send-message" ->
        Express.isConnected st = false \/ Express.sock st = None ->
        let out := Express.app e req st in
        status (fst (fst out)) = 503 /\
        json_field "success" (fst (fst out)) = Some (JBool false) /\
        snd (fst out) = st /\ snd out = []) /\
     (forall st : Mongo.state,
        pathname req = "/send-message" ->
        Mongo.isConnected st = false ->
        let out := Mongo.handler e req st in
        json_field "success" (fst (fst out)) = Some (JBool false) /\
        count is_send (snd out) = 0%nat /\
        match made e with
        | Returns s =>
            status (fst (fst out)) = 503 /\
            snd (fst out) = Mongo.set_sock (Some s) st /\
            snd out = [EMakeSocket (map Mongo.key (Mongo.auth_state st))]
        | Throws msg =>
            status (fst (fst out)) = 500 /\
            json_field "error" (fst (fst out)) = Some (JStr msg) /\
            snd (fst out) = st /\ snd out = []
        end) /\
     (forall st : Mongo.state,
        pathname req = "/send-message" ->
        Mongo.isConnected st = true -> Mongo.sock st = None ->
        let out := Mongo.handler e req st in
        match made e with
        | Returns s =>
            status (fst (fst out)) <> 503 /\
            snd (fst out) = Mongo.set_sock (Some s) st /\
            forall p, prop "phone" b = JStr p ->
              exists t,
                snd out
                = EMakeSocket (map Mongo.key (Mongo.auth_state st))
                  :: EOnWhatsApp (formatPhoneNumber p ++ "@s.whatsapp.net")
                  :: t
        | Throws msg =>
            status (fst (fst out)) = 500 /\
            json_field "error" (fst (fst out)) = Some (JStr msg) /\
            snd (fst out) = st /\ snd out = []
        end)) /\
  (forall b,
     body req = Some b ->
     truthy (prop "phone" b) = false \/ truthy (prop "message" b) = false ->
     let bad := respond 400 [("success", JBool false);
                             ("error", JStr "Phone and message are required")] in
     (forall st : Tmp.state,
        pathname req = "/api/send" ->
        Tmp.isConnected st = false \/ Tmp.sock st = None ->
        Tmp.handler (H := L) e req st = (bad, st, [])) /\
     (forall st : Express.state,
        pathname req = "/send-message" ->
        Express.app e req st = (bad, st, [])) /\
     (forall st : Mongo.state,
        pathname req = "/send-message" ->
        Mongo.handler e req st = (bad, st, []))) /\
  (body req = None ->
   (forall st : Tmp.state,
      pathname req = "/api/send" ->
      Tmp.isConnected st = false \/ Tmp.sock st = None ->
      let out := Tmp.handler (H := L) e req st in
      status (fst (fst out)) = 500 /\
      json_field "success" (fst (fst out)) = Some (JBool false) /\
      snd (fst out) = st /\ snd out = []) /\
   (forall st : Express.state,
      pathname req = "/send-message" ->
      let out := Express.app e req st in
      status (fst (fst out)) = 400 /\
      json_field "success" (fst (fst out)) = Some (JBool false) /\
      snd (fst out) = st /\ snd out = []) /\
   (forall st : Mongo.state,
      pathname req = "/send-message" ->
      let out := Mongo.handler e req st in
      status (fst (fst out)) = 500 /\
      json_field "success" (fst (fst out)) = Some (JBool false) /\
      snd (fst out) = st /\ snd out = [])).
Proof.
  destruct req as [m path pr ho bo]. simpl. intros ->.
  split; [|split].
  - intros b -> Hp Hm. split; [|split; [|split]].
    + intros [s q c l d]. simpl. intros -> Hd. cbv zeta.
      unfold Tmp.handler, Tmp.routes, Tmp.keepAlive, Tmp.route_send. simpl.
      run. simpl. rewrite Hp, Hm. simpl.
      destruct Hd as [-> | ->]; simpl.
      * destruct s; simpl; repeat split.
      * destruct c; simpl; repeat split.
    + intros [s g c q n d]. simpl. intros -> Hd. cbv zeta.
      unfold Express.app, Express.send_message. simpl.
      run. simpl. rewrite Hp, Hm. simpl.
      destruct Hd as [-> | ->]; simpl.
      * repeat split.
      * destruct c; simpl; repeat split.
    + intros [s q c d]. simpl. intros -> ->. cbv zeta.
      unfold Mongo.handler, Mongo.routes, Mongo.route_send, Mongo.initWhatsApp,
        Mongo.initWhatsApp_new. simpl.
      run. simpl. rewrite Hp, Hm. simpl.
      destruct s as [s|]; simpl; destruct (made e) as [s'|msg]; simpl;
        repeat split.
    + intros [s q c d]. simpl. intros -> -> ->. cbv zeta.
      unfold Mongo.handler, Mongo.routes, Mongo.route_send, Mongo.initWhatsApp,
        Mongo.initWhatsApp_new, formatPhone. simpl.
      run. simpl. rewrite Hp, Hm. simpl.
      destruct (made e) as [s'|msg]; simpl; [|repeat split].
      destruct (prop "phone" b) as [| |bb|n|p0|l0]; simpl;
        try (split; [discriminate
                    |split; [reflexivity|intros p Hpp; discriminate Hpp]]).
      destruct (onWhatsApp e _) as [[|]|m1]; simpl;
        [destruct (sendMessage e _ _) as [i|m2]; simpl| |];
        (split; [discriminate
                |split; [reflexivity
                        |intros p Hpp; inversion Hpp; subst;
                         eexists; reflexivity]]).
  - intros b -> Hb. cbv zeta.
    assert (Hv : (negb (truthy (prop "phone" b))
                  || negb (truthy (prop "message" b)))%bool = true).
    { destruct Hb as [-> | ->]; [reflexivity | apply orb_true_r]. }
    split; [|split].
    + intros [s q c l d]. simpl. intros -> Hd.
      unfold Tmp.handler, Tmp.routes, Tmp.keepAlive, Tmp.route_send. simpl.
      run. simpl. rewrite Hv.
      destruct Hd as [-> | ->]; simpl.
      * destruct s; reflexivity.
      * reflexivity.
    + intros st ->. unfold Express.app, Express.send_message. simpl.
      run. simpl. rewrite Hv. reflexivity.
    + intros st ->. unfold Mongo.handler, Mongo.routes, Mongo.route_send. simpl.
      run. simpl. rewrite Hv. reflexivity.
  - intros ->. split; [|split].
    + intros [s q c l d]. simpl. intros -> Hd. cbv zeta.
      unfold Tmp.handler, Tmp.routes, Tmp.keepAlive, Tmp.route_send. simpl.
      run. simpl.
      destruct Hd as [-> | ->]; simpl.
      * destruct s; simpl; repeat split.
      * repeat split.
    + intros st ->. cbv zeta. unfold Express.app, Express.send_message. simpl.
      run. simpl. repeat split.
    + intros st ->. cbv zeta.
      unfold Mongo.handler, Mongo.routes, Mongo.route_send. simpl.
      run. simpl. repeat split.
Qed.

Lemma C1_send_while_disconnected_witness :
  status (fst (fst (Tmp.handler (H := baileys) (calm 0)
                      (post_request "/api/send" hi_body)
                      (Tmp.initial 0 [creds_file])))) = 503 /\
  status (fst (fst (Express.app (calm 0)
                      (post_request "/send-message" hi_body)
                      (Express.initial [creds_file])))) = 503 /\
  status (fst (fst (Mongo.handler (calm 0)
                      (post_request "/send-message" hi_body)
                      (Mongo.initial [creds_doc])))) = 503 /\
  status (fst (fst (Mongo.handler (calm 0)
                      (post_request "/send-message" [("phone", JStr "0812")])
                      (Mongo.initial [creds_doc])))) = 400 /\
  status (fst (fst (Tmp.handler (H := baileys) (calm 0)
                      (bare_post "/api/send")
                      (Tmp.initial 0 [creds_file])))) = 500.
Proof.
  pose proof (proj1 (C1_send_while_disconnected baileys (calm 0)
                       (post_request "/api/send" hi_body) eq_refl)
                hi_body eq_refl eq_refl eq_refl) as [T _].
  pose proof (proj1 (C1_send_while_disconnected baileys (calm 0)
                       (post_request "/send-message" hi_body) eq_refl)
                hi_body eq_refl eq_refl eq_refl) as [_ [X [G _]]].
  pose proof (proj1 (proj2 (C1_send_while_disconnected baileys (calm 0)
                       (post_request "/send-message" [("phone", JStr "0812")])
                       eq_refl))
                [("phone", JStr "0812")] eq_refl (or_intror eq_refl))
    as [_ [_ B]].
  pose proof (proj2 (proj2 (C1_send_while_disconnected baileys (calm 0)
                       (bare_post "/api/send") eq_refl)) eq_refl) as [N _].
  split; [|split; [|split; [|split]]].
  - exact (proj1 (T (Tmp.initial 0 [creds_file]) eq_refl (or_introl eq_refl))).
  - exact (proj1 (X (Express.initial [creds_file]) eq_refl (or_introl eq_refl))).
  - exact (proj1 (proj2 (proj2 (G (Mongo.initial [creds_doc]) eq_refl eq_refl)))).
  - exact (f_equal (fun o => status (fst (fst o)))
             (B (Mongo.initial [creds_doc]) eq_refl)).
  - exact (proj1 (N (Tmp.initial 0 [creds_file]) eq_refl (or_introl eq_refl))).
Defined.

(** C1, as stated, fails: in the Mongo variant a failing reconnect turns the
    answer into a 500, and with the flag up and no handle the request goes
    on to the lookup and the send; in every variant a request without a
    message is answered 400 before the connection is looked at; and without
    a parsed body the Tmp variant answers 500. *)
Lemma C1_counterexample :
  status (fst (fst (Mongo.handler (broken 0 "connect ECONNREFUSED")
                      (post_request "/send-message" hi_body)
                      (Mongo.initial [])))) = 500 /\
  Mongo.handler (calm 0) (post_request "/send-message" hi_body)
    (mongo_flag_up [])
  = (respond 200 [("success", JBool true);
                  ("message", JStr "Message sent successfully");
                  ("to", JStr "6281234567890");
                  ("messageId", JStr "3EB0");
                  ("timestamp", JStr "2024-01-01T00:00:00.000Z")],
     Mongo.set_sock (Some fresh_socket) (mongo_flag_up []),
     [EMakeSocket [];
      EOnWhatsApp "6281234567890@s.whatsapp.net";
      ESendMessage "6281234567890@s.whatsapp.net" (JStr "hi")]) /\
  status (fst (fst (Tmp.handler (H := baileys) (calm 0)
                      (post_request "/api/send" [("phone", JStr "081234567890")])
                      (Tmp.initial 0 [])))) = 400 /\
  status (fst (fst (Tmp.handler (H := baileys) (calm 0)
                      (bare_post "/api/send") (Tmp.initial 0 [])))) = 500.
Proof. repeat split. Qed.

(** ** Removing the credential files *)

Section Folder.

Lemma unlink_files_done (fs : list file) :
  fst (fst (unlink_files fs)) = Returns tt -> snd (fst (unlink_files fs)) = [].
Proof.
  induction fs as [|f r IH]; simpl; [reflexivity|].
  destruct (unlink_error f); simpl; [discriminate|].
  destruct (unlink_files r) as [[o r'] t]. simpl in *. exact IH.
Qed.

Lemma unlink_files_only_unlinks (fs : list file) (p : effect -> bool) :
  (forall n, p (EUnlink n) = false) ->
  count p (snd (unlink_files fs)) = 0%nat.
Proof.
  intros Hp. unfold count.
  induction fs as [|f r IH]; simpl; [reflexivity|].
  destruct (unlink_error f); simpl; [now rewrite Hp|].
  destruct (unlink_files r) as [[o r'] t]. simpl in *. now rewrite Hp.
Qed.

Lemma remove_auth_files_done (d : folder) :
  fst (fst (remove_auth_files d)) = Returns tt ->
  snd (fst (remove_auth_files d)) = Dir [].
Proof.
  destruct d as [msg|fs]; simpl; [discriminate|].
  pose proof (unlink_files_done fs) as Hd.
  destruct (unlink_files fs) as [[o r'] t]. simpl in *.
  intros E. now rewrite (Hd E).
Qed.

Lemma remove_auth_files_kept (d : folder) (msg : string) :
  fst (fst (remove_auth_files d)) = Throws msg ->
  snd (fst (remove_auth_files d)) <> Dir [].
Proof.
  destruct d as [m|fs]; simpl; [discriminate|].
  induction fs as [|f r IH]; simpl; [discriminate|].
  destruct (unlink_error f); simpl; [discriminate|].
  destruct (unlink_files r) as [[o r'] t]. simpl in *. exact IH.
Qed.

Lemma remove_auth_files_one_readdir (d : folder) :
  count is_readdir (snd (remove_auth_files d)) = 1%nat.
Proof.
  destruct d as [m|fs]; simpl; [reflexivity|].
  pose proof (unlink_files_only_unlinks fs is_readdir (fun _ => eq_refl)) as Hc.
  destruct (unlink_files fs) as [[o r'] t]. unfold count in *. simpl in *.
  now rewrite Hc.
Qed.

Lemma remove_auth_files_no_timer (d : folder) :
  count is_timer (snd (remove_auth_files d)) = 0%nat.
Proof.
  destruct d as [m|fs]; simpl; [reflexivity|].
  pose proof (unlink_files_only_unlinks fs is_timer (fun _ => eq_refl)) as Hc.
  destruct (unlink_files fs) as [[o r'] t]. unfold count in *. simpl in *.
  exact Hc.
Qed.

Lemma count_app (p : effect -> bool) (a b : list effect) :
  count p (a ++ b)%list = (count p a + count p b)%nat.
Proof. unfold count. now rewrite filter_app, length_app. Qed.

End Folder.

(** ** Clearing *)

(** C10. In the Tmp variant, when removing the credential files throws, the
    clear route answers 500 with success:false although the handle is
    already ended and dropped, the connected flag down and the pairing code
    gone: the reset of the globals precedes the removal. *)
Theorem C10_clear_not_atomic (L : Library) (e : env) (req : request)
    (st : Tmp.state) (msg : string) :
  method req = "POST" ->
  pathname req = "/api/clear" ->
  fst (fst (remove_auth_files (Tmp.authFolder st))) = Throws msg ->
  let out := Tmp.handler (H := L) e req st in
  let st' := snd (fst out) in
  status (fst (fst out)) = 500 /\
  json_field "success" (fst (fst out)) = Some (JBool false) /\
  json_field "error" (fst (fst out)) = Some (JStr msg) /\
  Tmp.sock st' = None /\
  Tmp.isConnected st' = false /\
  Tmp.qrCode st' = None /\
  Tmp.authFolder st' <> Dir [] /\
  snd out = ((if is_some (Tmp.sock st) then [EEnd] else [])
             ++ snd (remove_auth_files (Tmp.authFolder st)))%list.
Proof.
  destruct req as [m path pr ho bo]. destruct st as [s q c l d]. simpl.
  intros -> -> Hr. cbv zeta.
  pose proof (remove_auth_files_kept d Hr) as Hk.
  unfold Tmp.handler, Tmp.routes, Tmp.keepAlive, Tmp.route_clear,
    Tmp.remove_files. simpl.
  run. simpl.
  destruct s as [s|]; simpl;
    [destruct c; simpl;
     [destruct (now e - l >? Tmp.CONNECTION_TIMEOUT); simpl|]|];
    destruct (remove_auth_files d) as [[o d'] t]; simpl in Hr, Hk; subst o;
    simpl; rewrite ?app_nil_r; repeat split; exact Hk.
Qed.

Lemma C10_clear_not_atomic_witness :
  let st := {| Tmp.sock := Some paired_socket; Tmp.qrCode := Some "2@abc";
               Tmp.isConnected := true; Tmp.lastActivity := 0;
               Tmp.authFolder := Dir [creds_file; stuck_file] |} in
  let out := Tmp.handler (H := baileys) (calm 1000)
               (post_request "/api/clear" []) st in
  status (fst (fst out)) = 500 /\
  Tmp.sock (snd (fst out)) = None /\
  Tmp.isConnected (snd (fst out)) = false /\
  Tmp.qrCode (snd (fst out)) = None /\
  Tmp.authFolder (snd (fst out)) = Dir [stuck_file].
Proof.
  cbv zeta.
  pose proof (C10_clear_not_atomic baileys (calm 1000)
                (post_request "/api/clear" [])
                {| Tmp.sock := Some paired_socket; Tmp.qrCode := Some "2@abc";
                   Tmp.isConnected := true; Tmp.lastActivity := 0;
                   Tmp.authFolder := Dir [creds_file; stuck_file] |}
                eq_refl eq_refl eq_refl) as (H1 & _ & _ & H2 & H3 & H4 & _).
  exact (conj H1 (conj H2 (conj H3 (conj H4 eq_refl)))).
Defined.

(** C5. When the clear route (POST /clear-auth of the Express variant, POST
    /api/clear of the Tmp variant) answers success:true, a handle that
    existed has been ended and the handle is null, the credential folder is
    empty, the pairing code is gone, the connected flag is down, the Express
    variant's attempt counter is zero, and a status request that follows
    reports connected:false. *)
Theorem C5_clear_success (L : Library) (e e' : env) (p h p' h' : string)
    (b b' : option fields) :
  (forall st : Express.state,
     let out := Express.app e
                  {| method := "POST"; pathname := "/clear-auth";
                     protocol := p; host := h; body := b |} st in
     let st' := snd (fst out) in
     json_field "success" (fst (fst out)) = Some (JBool true) ->
     Express.sock st' = None /\
     Express.authFolder st' = Dir [] /\
     Express.connectionAttempts st' = 0 /\
     Express.currentQR st' = None /\
     Express.isConnected st' = false /\
     (is_some (Express.sock st) = true -> In EEnd (snd out)) /\
     json_field "connected"
       (fst (fst (Express.app e'
                    {| method := "GET"; pathname := "/status";
                       protocol := p'; host := h'; body := b' |} st')))
     = Some (JBool false)) /\
  (forall st : Tmp.state,
     let out := Tmp.handler (H := L) e
                  {| method := "POST"; pathname := "/api/clear";
                     protocol := p; host := h; body := b |} st in
     let st' := snd (fst out) in
     json_field "success" (fst (fst out)) = Some (JBool true) ->
     Tmp.sock st' = None /\
     Tmp.authFolder st' = Dir [] /\
     Tmp.qrCode st' = None /\
     Tmp.isConnected st' = false /\
     (is_some (Tmp.sock st) = true -> In EEnd (snd out)) /\
     json_field "connected"
       (fst (fst (Tmp.handler (H := L) e'
                    {| method := "GET"; pathname := "/api/status";
                       protocol := p'; host := h'; body := b' |} st')))
     = Some (JBool false)).
Proof.
  split.
  - intros [s g c q n d]. cbv zeta.
    pose proof (remove_auth_files_done d) as Hd.
    unfold Express.app, Express.clear_auth, Express.get_status,
      Express.remove_files. simpl.
    run. simpl.
    destruct (remove_auth_files d) as [[[[]|msg] d'] t]; simpl in *;
      [|discriminate].
    rewrite (Hd eq_refl).
    destruct s as [s|]; simpl; intros _; repeat split;
      try discriminate; intros _; apply in_or_app; right; simpl; auto.
  - intros [s q c l d]. cbv zeta.
    pose proof (remove_auth_files_done d) as Hd.
    unfold Tmp.handler, Tmp.routes, Tmp.keepAlive, Tmp.route_clear,
      Tmp.route_status, Tmp.remove_files. simpl.
    run. simpl.
    destruct s as [s|]; simpl;
      [destruct c; simpl;
       [destruct (now e - l >? Tmp.CONNECTION_TIMEOUT); simpl|]|];
      (destruct (remove_auth_files d) as [[[[]|msg] d'] t]; simpl in *;
       [|discriminate]);
      rewrite (Hd eq_refl); intros _; repeat split;
      try discriminate; intros _; simpl; auto.
Qed.

Lemma C5_clear_success_witness :
  Express.authFolder
    (snd (fst (Express.app (calm 10) (post_request "/clear-auth" [])
                 (express_connected 2 [creds_file]))))
  = Dir [] /\
  Tmp.authFolder
    (snd (fst (Tmp.handler (H := baileys) (calm 10)
                 (post_request "/api/clear" [])
                 (tmp_connected 0 [creds_file]))))
  = Dir [].
Proof.
  pose proof (C5_clear_success baileys (calm 10) (calm 20)
                "http" "localhost:3000" "http" "localhost:3000"
                (Some []) None) as [X T].
  split.
  - exact (proj1 (proj2 (X (express_connected 2 [creds_file]) eq_refl))).
  - exact (proj1 (proj2 (T (tmp_connected 0 [creds_file]) eq_refl))).
Defined.

(** ** Closing *)

(** C2 (amended). When the connection closes with the logged-out reason, no
    variant schedules a reconnect or makes a socket, and the connected flag
    goes down.  The Express and Tmp variants drop the pairing code and remove
    the credential files: when no file-system error stops the removal the
    folder is left empty, so that the next connect makes its socket from no
    stored credentials and a pairing code the library then emits becomes the
    new artifact.  The Mongo variant drops the handle and leaves the stored
    documents as they are. *)
Theorem C2_logout_close (L : Library) (u : update) :
  conn u = Some Close ->
  is_loggedOut (statusCode u) = true ->
  (forall st : Express.state,
     let out := Express.connection_update u st in
     let st' := snd (fst out) in
     count is_timer (snd out) = 0%nat /\
     count is_make (snd out) = 0%nat /\
     Express.isConnected st' = false /\
     Express.currentQR st' = None /\
     (fst (fst (remove_auth_files (Express.authFolder st))) = Returns tt ->
      Express.authFolder st' = Dir [] /\
      forall e s q t,
        made e = Returns s ->
        truthy_str (Some q) = true ->
        let next := Express.connectToWhatsApp e st' in
        snd next = [EMakeSocket []] /\
        Express.currentQR
          (snd (fst (Express.connection_update
                       {| conn := None; statusCode := None; qr := Some q;
                          at_time := t |} (snd (fst next))))) = Some q)) /\
  (forall st : Tmp.state,
     let out := Tmp.connection_update u st in
     let st' := snd (fst out) in
     count is_timer (snd out) = 0%nat /\
     count is_make (snd out) = 0%nat /\
     Tmp.isConnected st' = false /\
     Tmp.qrCode st' = None /\
     (fst (fst (remove_auth_files (Tmp.authFolder st))) = Returns tt ->
      Tmp.authFolder st' = Dir [] /\
      forall e s q t rest,
        made e = Returns s ->
        events e = {| conn := None; statusCode := None; qr := Some q;
                      at_time := t |} :: rest ->
        truthy_str (Some q) = true ->
        let next := Tmp.connectToWhatsApp e st' in
        fst (fst next) = Returns (Tmp.RQr q) /\
        Tmp.qrCode (snd (fst next)) = Some q /\
        snd next = [EMakeSocket []])) /\
  (forall st : Mongo.state,
     let out := Mongo.connection_update u st in
     let st' := snd (fst out) in
     count is_timer (snd out) = 0%nat /\
     count is_make (snd out) = 0%nat /\
     Mongo.isConnected st' = false /\
     Mongo.sock st' = None /\
     Mongo.auth_state st' = Mongo.auth_state st).
Proof.
  destruct u as [c code q0 t0]. simpl. intros -> Hout.
  split; [|split].
  - intros [s g c q n d]. cbv zeta.
    pose proof (remove_auth_files_done d) as Hd.
    pose proof (remove_auth_files_no_timer d) as Ht.
    assert (Hm : count is_make (snd (remove_auth_files d)) = 0%nat).
    { destruct d as [m|fs]; simpl; [reflexivity|].
      pose proof (unlink_files_only_unlinks fs is_make (fun _ => eq_refl)) as Hc.
      destruct (unlink_files fs) as [[o r'] t]. exact Hc. }
    unfold Express.connection_update, Express.connectToWhatsApp,
      Express.remove_files. simpl. rewrite Hout. simpl.
    run. simpl.
    destruct (truthy_str q0); simpl;
      (destruct (remove_auth_files d) as [[[[]|msg] d'] t]; simpl in *;
       rewrite ?app_nil_r;
       (split; [exact Ht|]); (split; [exact Hm|]);
       (split; [reflexivity|]); (split; [reflexivity|]);
       [intros _; split; [exact (Hd eq_refl)|]; rewrite (Hd eq_refl);
        intros e s' q' t1 -> Hq; simpl; rewrite Hq; simpl; split; reflexivity
       | discriminate]).
  - intros [s q c l d]. cbv zeta.
    pose proof (remove_auth_files_done d) as Hd.
    pose proof (remove_auth_files_no_timer d) as Ht.
    assert (Hm : count is_make (snd (remove_auth_files d)) = 0%nat).
    { destruct d as [m|fs]; simpl; [reflexivity|].
      pose proof (unlink_files_only_unlinks fs is_make (fun _ => eq_refl)) as Hc.
      destruct (unlink_files fs) as [[o r'] t]. exact Hc. }
    unfold Tmp.connection_update, Tmp.connectToWhatsApp, Tmp.connect_new,
      Tmp.remove_files. simpl. rewrite Hout. simpl.
    run. simpl.
    destruct q0 as [x|]; [destruct (negb (x =? "")%string)|]; simpl;
      (destruct (remove_auth_files d) as [[[[]|msg] d'] t]; simpl in *;
       rewrite ?app_nil_r;
       (split; [exact Ht|]); (split; [exact Hm|]);
       (split; [reflexivity|]); (split; [reflexivity|]);
       [intros _; split; [exact (Hd eq_refl)|]; rewrite (Hd eq_refl);
        intros e s' q' t1 rest -> -> Hq; simpl;
        unfold Tmp.connection_update; run; simpl; rewrite Hq; simpl;
        destruct s; simpl; repeat split
       | discriminate]).
  - intros [s q c d]. cbv zeta.
    unfold Mongo.connection_update. simpl. rewrite Hout. simpl.
    run. simpl.
    destruct q0 as [x|]; [destruct (negb (x =? "")%string)|]; simpl;
      repeat split.
Qed.

Lemma C2_logout_close_witness :
  Tmp.authFolder
    (snd (fst (Tmp.connection_update (H := baileys) logout_close
                 (tmp_connected 0 [creds_file])))) = Dir [] /\
  Express.authFolder
    (snd (fst (Express.connection_update (H := baileys) logout_close
                 (express_connected 0 [creds_file])))) = Dir [] /\
  Mongo.auth_state
    (snd (fst (Mongo.connection_update (H := baileys) logout_close
                 (mongo_connected [creds_doc])))) = [creds_doc].
Proof.
  pose proof (C2_logout_close baileys logout_close eq_refl eq_refl)
    as (X & T & G).
  split; [|split].
  - destruct (T (tmp_connected 0 [creds_file])) as (_ & _ & _ & _ & H).
    exact (proj1 (H eq_refl)).
  - destruct (X (express_connected 0 [creds_file])) as (_ & _ & _ & _ & H).
    exact (proj1 (H eq_refl)).
  - destruct (G (mongo_connected [creds_doc])) as (_ & _ & _ & _ & H).
    exact H.
Defined.

(** C2, as stated, fails: the Mongo variant keeps every stored document at a
    logged-out close, and in the file-backed variants an entry that cannot
    be unlinked stops the removal, the error being swallowed. *)
Lemma C2_counterexample :
  Mongo.auth_state
    (snd (fst (Mongo.connection_update (H := baileys) logout_close
                 (mongo_connected [creds_doc])))) = [creds_doc] /\
  Tmp.authFolder
    (snd (fst (Tmp.connection_update (H := baileys) logout_close
                 (tmp_connected 0 [stuck_file; creds_file]))))
  = Dir [stuck_file; creds_file].
Proof. split; reflexivity. Qed.

Section ReconnectCycle.

Context {L : Library}.

(** Three failed attempts in a row end in one wipe and leave the counter at
    zero, ready for the next three. *)
Lemma rounds_readdirs (e : env) (u : update) (s : socket) (n : nat) :
  conn u = Some Close ->
  is_loggedOut (statusCode u) = false ->
  truthy_str (qr u) = false ->
  made e = Returns s ->
  forall st : Express.state,
    Express.connectionAttempts st = 0 ->
    count is_readdir (snd (rounds n e u st)) = n /\
    Express.connectionAttempts (snd (fst (rounds n e u st))) = 0.
Proof.
  destruct u as [c code q0 t0]. simpl. intros -> Hout Hq Hs.
  induction n as [|k IH]; intros [s0 g c' q a d]; simpl; intros ->.
  - split; reflexivity.
  - pose proof (remove_auth_files_one_readdir d) as Hr.
    unfold attempt_then, Express.connectToWhatsApp, Express.connection_update,
      Express.remove_files.
    simpl. rewrite Hout, Hq, Hs. run. simpl.
    destruct (remove_auth_files d) as [[[[]|msg] d'] t]; simpl in *.
    + match goal with
      | |- context [rounds k ?e' ?u' ?st'] =>
          specialize (IH st' eq_refl);
          destruct (rounds k e' u' st') as [[o4 s4] t4]
      end.
      simpl in *. destruct IH as [IH1 IH2]. split; [|exact IH2].
      unfold count in *. simpl.
      repeat (rewrite filter_app || rewrite length_app). simpl. lia.
    + match goal with
      | |- context [rounds k ?e' ?u' ?st'] =>
          specialize (IH st' eq_refl);
          destruct (rounds k e' u' st') as [[o4 s4] t4]
      end.
      simpl in *. destruct IH as [IH1 IH2]. split; [|exact IH2].
      unfold count in *. simpl.
      repeat (rewrite filter_app || rewrite length_app). simpl. lia.
Qed.

End ReconnectCycle.

(** C3 (amended). At a close for another reason than logged-out that finds
    the attempt counter at the maximum, the Express variant resets the
    counter to zero and reads the credential folder once to remove its
    files.  When the removal completes the folder is empty and exactly one
    reconnect is scheduled after it, 5 s later; when it throws, the error is
    swallowed and no reconnect is scheduled.  The close that follows the
    fresh attempt finds the counter at one and only schedules the ordinary
    reconnect.  But the counter has restarted from zero: as long as the
    attempts keep ending in such closes, every third of them wipes and
    retries again, so the step recurs without bound. *)
Theorem C3_exhausted_close (L : Library) (u : update) (st : Express.state) :
  conn u = Some Close ->
  is_loggedOut (statusCode u) = false ->
  truthy_str (qr u) = false ->
  Express.MAX_RETRY_ATTEMPTS <= Express.connectionAttempts st ->
  let wipe := remove_auth_files (Express.authFolder st) in
  let out := Express.connection_update u st in
  let st' := snd (fst out) in
  count is_readdir (snd out) = 1%nat /\
  count is_make (snd out) = 0%nat /\
  Express.connectionAttempts st' = 0 /\
  Express.authFolder st' = snd (fst wipe) /\
  match fst (fst wipe) with
  | Returns _ =>
      Express.authFolder st' = Dir [] /\
      snd out = (snd wipe ++ [ESetTimeout 5000])%list /\
      count is_timer (snd out) = 1%nat
  | Throws _ =>
      snd out = snd wipe /\ count is_timer (snd out) = 0%nat
  end /\
  forall (e : env) (u' : update),
    conn u' = Some Close ->
    is_loggedOut (statusCode u') = false ->
    truthy_str (qr u') = false ->
    let st1 := snd (fst (Express.connectToWhatsApp e st')) in
    Express.connectionAttempts st1 = 1 /\
    snd (Express.connection_update u' st1) = [ESetTimeout 5000] /\
    forall (s1 : socket) (n : nat),
      made e = Returns s1 ->
      count is_readdir (snd (rounds n e u' st')) = n.
Proof.
  destruct u as [c code q0 t0]. destruct st as [s g c' q n d]. simpl.
  intros -> Hout Hq Hn. cbv zeta.
  pose proof (remove_auth_files_done d) as Hd.
  pose proof (remove_auth_files_no_timer d) as Ht.
  pose proof (remove_auth_files_one_readdir d) as Hr.
  assert (Hm : count is_make (snd (remove_auth_files d)) = 0%nat).
  { destruct d as [m|fs]; simpl; [reflexivity|].
    pose proof (unlink_files_only_unlinks fs is_make (fun _ => eq_refl)) as Hc.
    destruct (unlink_files fs) as [[o r'] t]. exact Hc. }
  assert (Hlt : (n <? Express.MAX_RETRY_ATTEMPTS) = false)
    by (apply Z.ltb_ge; exact Hn).
  unfold Express.connection_update, Express.connectToWhatsApp,
    Express.remove_files. simpl. rewrite Hout, Hq. simpl.
  run. simpl. rewrite Hlt. simpl.
  destruct (remove_auth_files d) as [[[[]|msg] d'] t]; simpl in *;
    rewrite ?app_nil_r.
  - rewrite !count_app, Hr, Hm, Ht. simpl.
    repeat split; try reflexivity; try (exact (Hd eq_refl)).
    + destruct u' as [c1 code1 q1 t1]. simpl in *. subst c1.
      destruct (made e); reflexivity.
    + destruct u' as [c1 code1 q1 t1]. simpl in *. subst c1.
      unfold Express.connection_update. simpl.
      match goal with H : is_loggedOut code1 = false |- _ => rewrite H end.
      match goal with H : truthy_str q1 = false |- _ => rewrite H end.
      destruct (made e); reflexivity.
    + intros s1 k Hs1. eapply proj1. eapply rounds_readdirs; eauto.
  - repeat split; try assumption.
    + destruct u' as [c1 code1 q1 t1]. simpl in *. subst c1.
      destruct (made e); reflexivity.
    + destruct u' as [c1 code1 q1 t1]. simpl in *. subst c1.
      unfold Express.connection_update. simpl.
      match goal with H : is_loggedOut code1 = false |- _ => rewrite H end.
      match goal with H : truthy_str q1 = false |- _ => rewrite H end.
      destruct (made e); reflexivity.
    + intros s1 k Hs1. eapply proj1. eapply rounds_readdirs; eauto.
Qed.

Lemma C3_exhausted_close_witness :
  snd (Express.connection_update (H := baileys) lost_close
         (express_connected 3 [creds_file]))
  = [EReaddir; EUnlink "creds.json"; ESetTimeout 5000].
Proof.
  pose proof (C3_exhausted_close baileys lost_close
                (express_connected 3 [creds_file])
                eq_refl eq_refl eq_refl) as H.
  assert (Hn : Express.MAX_RETRY_ATTEMPTS
               <= Express.connectionAttempts (express_connected 3 [creds_file]))
    by (vm_compute; discriminate).
  destruct (H Hn) as (_ & _ & _ & _ & M & _). simpl in M.
  exact (proj1 (proj2 M)).
Defined.

(** C3, as stated, fails: when the removal throws nothing is scheduled and
    the files stay; and the step does repeat without bound, once in every
    three attempts that end in a lost connection. *)
Lemma C3_counterexample :
  (let out := Express.connection_update (H := baileys) lost_close
                (express_connected 3 [stuck_file]) in
   count is_timer (snd out) = 0%nat /\
   Express.authFolder (snd (fst out)) = Dir [stuck_file]) /\
  forall n : nat,
    count is_readdir
      (snd (rounds (H := baileys) n (calm 0) lost_close
              (express_connected 0 [creds_file]))) = n.
Proof.
  split; [split; reflexivity|].
  intros n.
  exact (proj1 (rounds_readdirs (L := baileys) (calm 0) lost_close n
                  eq_refl eq_refl eq_refl eq_refl
                  (express_connected 0 [creds_file]) eq_refl)).
Qed.

(** ** The idle policy of the Tmp variant *)

(** C8 (amended). In the Tmp variant a request other than a preflight that
    finds a connected handle idle for more than CONNECTION_TIMEOUT (five
    minutes) ends the handle, drops it and clears the connected flag before
    it is routed.  On the state so left, POST /api/connect and GET /api/qr
    (with no pairing code at hand) make a new socket, whereas POST /api/send
    does not reconnect: it answers 503 and changes nothing. *)
Theorem C8_idle_teardown (L : Library) (e : env) (st : Tmp.state) (s : socket) :
  Tmp.sock st = Some s ->
  Tmp.isConnected st = true ->
  Tmp.CONNECTION_TIMEOUT < now e - Tmp.lastActivity st ->
  let down := Tmp.set_isConnected false (Tmp.set_sock None st) in
  Tmp.keepAlive e st = (Returns tt, down, [EEnd]) /\
  (forall req,
     (method req =? "OPTIONS")%string = false ->
     Tmp.handler (H := L) e req st
     = let '(r, st', t) := finish (Tmp.routes e req) down in
       (r, st', EEnd :: t)) /\
  (forall e' req b,
     method req = "POST" -> pathname req = "/api/send" ->
     body req = Some b ->
     truthy (prop "phone" b) = true -> truthy (prop "message" b) = true ->
     let out := Tmp.handler (H := L) e' req down in
     status (fst (fst out)) = 503 /\
     snd (fst out) = down /\ snd out = []) /\
  (forall e' req s',
     method req = "POST" -> pathname req = "/api/connect" ->
     made e' = Returns s' ->
     exists t,
       snd (Tmp.handler (H := L) e' req down)
       = EMakeSocket (stored_files (Tmp.authFolder st)) :: t) /\
  (forall e' req s',
     method req = "GET" -> pathname req = "/api/qr" ->
     truthy_str (Tmp.qrCode st) = false ->
     made e' = Returns s' ->
     exists t,
       snd (Tmp.handler (H := L) e' req down)
       = EMakeSocket (stored_files (Tmp.authFolder st)) :: t).
Proof.
  destruct st as [s0 q c l d]. simpl. intros -> -> Hidle. cbv zeta.
  assert (Hgt : (now e - l >? Tmp.CONNECTION_TIMEOUT) = true)
    by (apply Z.gtb_lt; exact Hidle).
  assert (Hk : Tmp.keepAlive e
                 {| Tmp.sock := Some s; Tmp.qrCode := q; Tmp.isConnected := true;
                    Tmp.lastActivity := l; Tmp.authFolder := d |}
               = (Returns tt,
                  Tmp.set_isConnected false
                    (Tmp.set_sock None
                       {| Tmp.sock := Some s; Tmp.qrCode := q;
                          Tmp.isConnected := true; Tmp.lastActivity := l;
                          Tmp.authFolder := d |}), [EEnd])).
  { unfold Tmp.keepAlive. run. simpl. rewrite Hgt. reflexivity. }
  split; [exact Hk|]. split; [|split; [|split]].
  - intros req Hm. unfold Tmp.handler. rewrite Hm.
    unfold finish, bind. rewrite Hk.
    destruct (Tmp.routes e req _) as [[[r|msg] s2] t2]; reflexivity.
  - intros e' [m path pr ho bo] b. simpl. intros -> -> -> Hp Hm.
    unfold Tmp.handler, Tmp.routes, Tmp.keepAlive, Tmp.route_send. simpl.
    run. simpl. rewrite Hp, Hm. simpl. repeat split.
  - intros e' [m path pr ho bo] s'. simpl. intros -> -> Hs.
    unfold Tmp.handler, Tmp.routes, Tmp.keepAlive, Tmp.route_connect,
      Tmp.connectToWhatsApp, Tmp.connect_new. simpl.
    run. simpl. rewrite Hs. simpl.
    destruct (Tmp.await_settled (events e') _) as [[[r|msg] s3] t3]; simpl;
      eexists; reflexivity.
  - intros e' [m path pr ho bo] s'. simpl. intros -> -> Hq Hs.
    unfold Tmp.handler, Tmp.routes, Tmp.keepAlive, Tmp.route_qr,
      Tmp.connectToWhatsApp, Tmp.connect_new. simpl.
    run. simpl. rewrite Hq, Hs. simpl.
    destruct (Tmp.await_settled (events e') _) as [[[r|msg] s3] t3]; simpl;
      (destruct (Tmp.qrCode s3) as [x|]; [destruct (x =? "")%string|]);
      simpl; eexists; reflexivity.
Qed.

Lemma C8_idle_teardown_witness :
  Tmp.keepAlive (calm 300001) (tmp_connected 0 [creds_file])
  = (Returns tt,
     Tmp.set_isConnected false
       (Tmp.set_sock None (tmp_connected 0 [creds_file])),
     [EEnd]).
Proof.
  exact (proj1 (C8_idle_teardown baileys (calm 300001)
                  (tmp_connected 0 [creds_file]) (s := paired_socket)
                  eq_refl eq_refl eq_refl)).
Defined.

(** C8, as stated, fails in its second half: after the idle teardown a send
    request is refused with 503 and no socket is made. *)
Lemma C8_counterexample :
  let first := Tmp.handler (H := baileys) (calm 300001)
                 (get_request "/api/status") (tmp_connected 0 [creds_file]) in
  let next := Tmp.handler (H := baileys) (calm 300002)
                (post_request "/api/send" hi_body) (snd (fst first)) in
  Tmp.sock (snd (fst first)) = None /\
  Tmp.isConnected (snd (fst first)) = false /\
  status (fst (fst next)) = 503 /\
  count is_make (snd next) = 0%nat /\
  snd (fst next) = snd (fst first).
Proof. repeat split. Qed.

(** ** The credential collection of the Mongo variant *)

Section Store.

Variables (t : Z) (d k : string).

Lemma readData_writeData (c : list Mongo.doc) :
  Mongo.readData k (Mongo.writeData t d k c) = Some d.
Proof.
  unfold Mongo.readData.
  induction c as [|x r IH]; simpl.
  - now rewrite String.eqb_refl.
  - destruct (Mongo.key x =? k)%string eqn:E; simpl.
    + now rewrite String.eqb_refl.
    + now rewrite E.
Qed.

Lemma readData_writeData_other (k' : string) (c : list Mongo.doc) :
  k' <> k ->
  Mongo.readData k' (Mongo.writeData t d k c) = Mongo.readData k' c.
Proof.
  intros Hk. apply String.eqb_neq in Hk. unfold Mongo.readData.
  induction c as [|x r IH]; simpl.
  - rewrite String.eqb_sym. now rewrite Hk.
  - destruct (Mongo.key x =? k)%string eqn:E; simpl.
    + apply String.eqb_eq in E. rewrite E.
      rewrite String.eqb_sym. now rewrite Hk.
    + destruct (Mongo.key x =? k')%string; [reflexivity | exact IH].
Qed.

Lemma readData_removeData_absent (c : list Mongo.doc) :
  Mongo.readData k c = None -> Mongo.removeData k c = c.
Proof.
  unfold Mongo.readData.
  induction c as [|x r IH]; simpl; [reflexivity|].
  destruct (Mongo.key x =? k)%string; simpl; [discriminate|].
  intros H. now rewrite IH.
Qed.

End Store.

(** ** Runs of the embedding on concrete requests *)

Example tmp_send_connected :
  Tmp.handler (H := baileys) (calm 10) (post_request "/api/send" hi_body)
    (tmp_connected 0 [creds_file])
  = (respond 200 [("success", JBool true);
                  ("message", JStr "Message sent successfully");
                  ("to", JStr "6281234567890");
                  ("messageId", JStr "3EB0")],
     tmp_connected 10 [creds_file],
     [EOnWhatsApp "6281234567890@s.whatsapp.net";
      ESendMessage "6281234567890@s.whatsapp.net" (JStr "hi")]).
Proof. reflexivity. Qed.

Example tmp_send_number_phone :
  status (fst (fst (Tmp.handler (H := baileys) (calm 10)
                      (post_request "/api/send"
                         [("phone", JNum 81234567890); ("message", JStr "hi")])
                      (tmp_connected 0 [creds_file])))) = 500.
Proof. reflexivity. Qed.

Example tmp_connect_pairing :
  Tmp.handler (H := baileys)
    {| now := 5; iso_now := ""; uptime := 0; made := Returns fresh_socket;
       events := [pairing "2@abc"]; onWhatsApp := fun _ => Returns true;
       sendMessage := fun _ _ => Returns "3EB0"; sent_at := 5 |}
    (post_request "/api/connect" []) (Tmp.initial 0 [])
  = (respond 200 [("success", JBool true); ("qr", JStr "2@abc");
                  ("needsScan", JBool true)],
     {| Tmp.sock := Some fresh_socket; Tmp.qrCode := Some "2@abc";
        Tmp.isConnected := false; Tmp.lastActivity := 0;
        Tmp.authFolder := Dir [] |},
     [EMakeSocket []]).
Proof. reflexivity. Qed.

Example tmp_connect_timeout :
  fst (fst (Tmp.handler (H := baileys) (calm 5)
              (post_request "/api/connect" []) (Tmp.initial 0 [])))
  = error_500 "Connection timeout".
Proof. reflexivity. Qed.

Example tmp_idle_boundary :
  snd (Tmp.handler (H := baileys) (calm 300000) (get_request "/api/status")
         (tmp_connected 0 [creds_file])) = [].
Proof. reflexivity. Qed.

Example express_backoff :
  snd (Express.connection_update (H := baileys) lost_close
         (express_connected 2 [creds_file])) = [ESetTimeout 10000].
Proof. reflexivity. Qed.

Example express_open_resets :
  Express.connectionAttempts
    (snd (fst (Express.connection_update (H := baileys) (opened 7)
                 (express_connected 2 [creds_file])))) = 0.
Proof. reflexivity. Qed.

Example mongo_lost_close :
  Mongo.connection_update (H := baileys) lost_close (mongo_connected [creds_doc])
  = (Returns tt,
     {| Mongo.sock := None; Mongo.qrCodeData := None;
        Mongo.isConnected := false; Mongo.auth_state := [creds_doc] |},
     [ESetTimeout 5000]).
Proof. reflexivity. Qed.

Example mongo_send_connected :
  snd (Mongo.handler (calm 10) (post_request "/send-message" hi_body)
         (mongo_connected [creds_doc]))
  = [EOnWhatsApp "6281234567890@s.whatsapp.net";
     ESendMessage "6281234567890@s.whatsapp.net" (JStr "hi")].
Proof. reflexivity. Qed.

(** * Further properties of the code *)

(** ** The send route *)

Arguments formatPhoneNumber : simpl never.

Ltac open_send :=
  unfold Tmp.handler, Tmp.routes, Tmp.keepAlive, Tmp.route_send,
    Express.app, Express.send_message,
    Mongo.handler, Mongo.routes, Mongo.route_send, Mongo.initWhatsApp,
    formatPhone;
  simpl; run; simpl.

(** X1. A send request whose parsed body lacks a phone or a message, or
    holds a falsy one, is answered 400 in every variant, before the
    connection is looked at: the Express and Mongo variants change nothing
    and call nothing, the Tmp variant has done no more than its
    [keepAlive()].  A send request without a parsed body is answered 400 by
    the Express variant in the same way, and 500 by the Tmp and Mongo
    variants, where reading the fields of the body throws. *)
Theorem X1_send_validation (L : Library) (e : env) (req : request) :
  method req = "POST" ->
  let bad := respond 400 [("success", JBool false);
                          ("error", JStr "Phone and message are required")] in
  (forall b,
     body req = Some b ->
     truthy (prop "phone" b) = false \/ truthy (prop "message" b) = false ->
     (pathname req = "/send-message" ->
      (forall st : Express.state, Express.app e req st = (bad, st, [])) /\
      (forall st : Mongo.state, Mongo.handler e req st = (bad, st, []))) /\
     (pathname req = "/api/send" ->
      forall st : Tmp.state,
        Tmp.handler (H := L) e req st
        = (bad, snd (fst (Tmp.keepAlive e st)), snd (Tmp.keepAlive e st)))) /\
  (body req = None ->
   (pathname req = "/send-message" ->
    (forall st : Express.state, Express.app e req st = (bad, st, [])) /\
    (forall st : Mongo.state,
       let out := Mongo.handler e req st in
       status (fst (fst out)) = 500 /\
       json_field "success" (fst (fst out)) = Some (JBool false) /\
       snd (fst out) = st /\ snd out = [])) /\
   (pathname req = "/api/send" ->
    forall st : Tmp.state,
      let out := Tmp.handler (H := L) e req st in
      status (fst (fst out)) = 500 /\
      json_field "success" (fst (fst out)) = Some (JBool false) /\
      snd (fst out) = snd (fst (Tmp.keepAlive e st)) /\
      snd out = snd (Tmp.keepAlive e st))).
Proof.
  destruct req as [m path pr ho bo]. simpl. intros ->. cbv zeta. split.
  - intros b -> Hb.
    assert (Hv : (negb (truthy (prop "phone" b))
                  || negb (truthy (prop "message" b)))%bool = true).
    { destruct Hb as [-> | ->]; [reflexivity | apply orb_true_r]. }
    split; intros ->.
    + split; intros st; open_send; rewrite Hv; reflexivity.
    + intros [s q c l d]. open_send. rewrite Hv.
      destruct s as [s|]; simpl; [|reflexivity].
      destruct c; simpl; [|reflexivity].
      destruct (now e - l >? Tmp.CONNECTION_TIMEOUT); reflexivity.
  - intros ->. split; intros ->.
    + split; intros st; open_send; repeat split.
    + intros [s q c l d]. open_send.
      destruct s as [s|]; simpl; [|repeat split].
      destruct c; simpl; [|repeat split].
      destruct (now e - l >? Tmp.CONNECTION_TIMEOUT); repeat split.
Qed.

Lemma X1_send_validation_witness :
  status (fst (fst (Express.app (calm 0)
                      (post_request "/send-message" [("phone", JStr "0812")])
                      (express_connected 0 [creds_file])))) = 400 /\
  status (fst (fst (Tmp.handler (H := baileys) (calm 0)
                      (post_request "/api/send" [("phone", JStr "0812")])
                      (tmp_connected 0 [creds_file])))) = 400 /\
  status (fst (fst (Tmp.handler (H := baileys) (calm 0)
                      (bare_post "/api/send")
                      (tmp_connected 0 [creds_file])))) = 500.
Proof.
  pose proof (proj1 (X1_send_validation baileys (calm 0)
                (post_request "/send-message" [("phone", JStr "0812")])
                eq_refl) [("phone", JStr "0812")]
                eq_refl (or_intror eq_refl)) as [X _].
  pose proof (proj1 (X1_send_validation baileys (calm 0)
                (post_request "/api/send" [("phone", JStr "0812")])
                eq_refl) [("phone", JStr "0812")]
                eq_refl (or_intror eq_refl)) as [_ T].
  pose proof (proj2 (X1_send_validation baileys (calm 0)
                (bare_post "/api/send") eq_refl) eq_refl) as [_ N].
  split; [|split].
  - exact (f_equal (fun o => status (fst (fst o)))
             (proj1 (X eq_refl) (express_connected 0 [creds_file]))).
  - exact (f_equal (fun o => status (fst (fst o)))
             (T eq_refl (tmp_connected 0 [creds_file]))).
  - exact (proj1 (N eq_refl (tmp_connected 0 [creds_file]))).
Defined.

Ltac send_case Hph Hp Hm :=
  open_send; rewrite Hph; simpl in Hp |- *; rewrite ?Hp, ?Hm; simpl.

(** X2. With a live session, a send request to a number the lookup does not
    know is answered 404 in every variant after exactly one recipient
    lookup, for the normalized number followed by [@s.whatsapp.net]; no
    message is sent and the state stays as it is. *)
Theorem X2_send_unregistered (L : Library) (e : env) (req : request)
    (b : fields) (p : string) :
  method req = "POST" ->
  body req = Some b ->
  prop "phone" b = JStr p ->
  truthy (JStr p) = true ->
  truthy (prop "message" b) = true ->
  let jid := formatPhoneNumber p ++ "@s.whatsapp.net" in
  onWhatsApp e jid = Returns false ->
  (pathname req = "/send-message" ->
   (forall st : Express.state,
      Express.isConnected st = true -> is_some (Express.sock st) = true ->
      Express.app e req st
      = (respond 404 [("success", JBool false);
                      ("error", JStr "Phone number not registered on WhatsApp");
                      ("phone", JStr (formatPhoneNumber p))],
         st, [EOnWhatsApp jid])) /\
   (forall st : Mongo.state,
      Mongo.isConnected st = true -> is_some (Mongo.sock st) = true ->
      Mongo.handler e req st
      = (respond 404 [("success", JBool false);
                      ("error", JStr "Phone number not registered on WhatsApp");
                      ("phone", JStr (formatPhoneNumber p))],
         st, [EOnWhatsApp jid]))) /\
  (pathname req = "/api/send" ->
   forall st : Tmp.state,
     Tmp.isConnected st = true -> is_some (Tmp.sock st) = true ->
     now e - Tmp.lastActivity st <= Tmp.CONNECTION_TIMEOUT ->
     Tmp.handler (H := L) e req st
     = (respond 404 [("success", JBool false);
                     ("error", JStr "Phone number not registered on WhatsApp")],
        st, [EOnWhatsApp jid])).
Proof.
  destruct req as [m path pr ho bo]. simpl. intros -> -> Hph Hp Hm.
  cbv zeta. intros Hw.
  split; intros ->.
  - split.
    + intros [[s|] g c q n d]; simpl; intros -> Hs; [|discriminate].
      send_case Hph Hp Hm. rewrite Hw. reflexivity.
    + intros [[s|] q c d]; simpl; intros -> Hs; [|discriminate].
      send_case Hph Hp Hm. rewrite Hw. reflexivity.
  - intros [[s|] q c l d]; simpl; intros -> Hs Hidle; [|discriminate].
    assert (Hgt : (now e - l >? Tmp.CONNECTION_TIMEOUT) = false).
    { rewrite Z.gtb_ltb. apply Z.ltb_ge. exact Hidle. }
    send_case Hph Hp Hm. rewrite Hgt. simpl. rewrite Hw. reflexivity.
Qed.

Lemma X2_send_unregistered_witness :
  Tmp.handler (H := baileys) (unknown_number 10)
    (post_request "/api/send" hi_body) (tmp_connected 0 [creds_file])
  = (respond 404 [("success", JBool false);
                  ("error", JStr "Phone number not registered on WhatsApp")],
     tmp_connected 0 [creds_file],
     [EOnWhatsApp "6281234567890@s.whatsapp.net"]).
Proof.
  assert (Hidle : now (unknown_number 10)
                  - Tmp.lastActivity (tmp_connected 0 [creds_file])
                  <= Tmp.CONNECTION_TIMEOUT) by (vm_compute; discriminate).
  exact (proj2 (X2_send_unregistered baileys (unknown_number 10)
                  (post_request "/api/send" hi_body) (b := hi_body)
                  (p := "081234567890")
                  eq_refl eq_refl eq_refl eq_refl eq_refl eq_refl)
           eq_refl (tmp_connected 0 [creds_file]) eq_refl eq_refl Hidle).
Defined.

(** X3. With a live session, a send request whose number is known and whose
    message the protocol layer accepts is answered 200 with the normalized
    number as [to] and the protocol's id as [messageId], after exactly one
    lookup followed by exactly one send to the same address.  The Express
    and Mongo variants keep their state; the Tmp variant only moves
    [lastActivity] to the time of the send. *)
Theorem X3_send_delivered (L : Library) (e : env) (req : request)
    (b : fields) (p mid : string) :
  method req = "POST" ->
  body req = Some b ->
  prop "phone" b = JStr p ->
  truthy (JStr p) = true ->
  truthy (prop "message" b) = true ->
  let jid := formatPhoneNumber p ++ "@s.whatsapp.net" in
  onWhatsApp e jid = Returns true ->
  sendMessage e jid (prop "message" b) = Returns mid ->
  let calls := [EOnWhatsApp jid; ESendMessage jid (prop "message" b)] in
  (pathname req = "/send-message" ->
   (forall st : Express.state,
      Express.isConnected st = true -> is_some (Express.sock st) = true ->
      let out := Express.app e req st in
      status (fst (fst out)) = 200 /\
      json_field "success" (fst (fst out)) = Some (JBool true) /\
      json_field "to" (fst (fst out)) = Some (JStr (formatPhoneNumber p)) /\
      json_field "messageId" (fst (fst out)) = Some (JStr mid) /\
      snd (fst out) = st /\ snd out = calls) /\
   (forall st : Mongo.state,
      Mongo.isConnected st = true -> is_some (Mongo.sock st) = true ->
      let out := Mongo.handler e req st in
      status (fst (fst out)) = 200 /\
      json_field "success" (fst (fst out)) = Some (JBool true) /\
      json_field "to" (fst (fst out)) = Some (JStr (formatPhoneNumber p)) /\
      json_field "messageId" (fst (fst out)) = Some (JStr mid) /\
      snd (fst out) = st /\ snd out = calls)) /\
  (pathname req = "/api/send" ->
   forall st : Tmp.state,
     Tmp.isConnected st = true -> is_some (Tmp.sock st) = true ->
     now e - Tmp.lastActivity st <= Tmp.CONNECTION_TIMEOUT ->
     let out := Tmp.handler (H := L) e req st in
     status (fst (fst out)) = 200 /\
     json_field "success" (fst (fst out)) = Some (JBool true) /\
     json_field "to" (fst (fst out)) = Some (JStr (formatPhoneNumber p)) /\
     json_field "messageId" (fst (fst out)) = Some (JStr mid) /\
     snd (fst out) = Tmp.set_lastActivity (sent_at e) st /\
     snd out = calls).
Proof.
  destruct req as [m path pr ho bo]. simpl. intros -> -> Hph Hp Hm.
  cbv zeta. intros Hw Hsend.
  split; intros ->.
  - split.
    + intros [[s|] g c q n d]; simpl; intros -> Hs; [|discriminate].
      send_case Hph Hp Hm. rewrite Hw. simpl. rewrite Hsend.
      simpl. repeat split.
    + intros [[s|] q c d]; simpl; intros -> Hs; [|discriminate].
      send_case Hph Hp Hm. rewrite Hw. simpl. rewrite Hsend.
      simpl. repeat split.
  - intros [[s|] q c l d]; simpl; intros -> Hs Hidle; [|discriminate].
    assert (Hgt : (now e - l >? Tmp.CONNECTION_TIMEOUT) = false).
    { rewrite Z.gtb_ltb. apply Z.ltb_ge. exact Hidle. }
    send_case Hph Hp Hm. rewrite Hgt. simpl. rewrite Hw. simpl.
    rewrite Hsend. simpl. repeat split.
Qed.

Lemma X3_send_delivered_witness :
  snd (Mongo.handler (calm 10) (post_request "/send-message" hi_body)
         (mongo_connected [creds_doc]))
  = [EOnWhatsApp "6281234567890@s.whatsapp.net";
     ESendMessage "6281234567890@s.whatsapp.net" (JStr "hi")].
Proof.
  destruct (proj2 (proj1 (X3_send_delivered baileys (calm 10)
                  (post_request "/send-message" hi_body) (b := hi_body)
                  (p := "081234567890") (mid := "3EB0")
                  eq_refl eq_refl eq_refl eq_refl eq_refl eq_refl eq_refl)
                            eq_refl)
              (mongo_connected [creds_doc]) eq_refl eq_refl)
    as (_ & _ & _ & _ & _ & H).
  exact H.
Defined.

(** X4. With a live session, a send request whose phone is truthy but not a
    string (a number, [true], an array) is answered 500 with success:false
    in every variant: normalization throws before anything is looked up or
    sent, and the state stays as it is. *)
Theorem X4_send_phone_not_a_string (L : Library) (e : env) (req : request)
    (b : fields) :
  method req = "POST" ->
  body req = Some b ->
  truthy (prop "phone" b) = true ->
  (forall s, prop "phone" b <> JStr s) ->
  truthy (prop "message" b) = true ->
  (pathname req = "/send-message" ->
   (forall st : Express.state,
      Express.isConnected st = true -> is_some (Express.sock st) = true ->
      let out := Express.app e req st in
      status (fst (fst out)) = 500 /\
      json_field "success" (fst (fst out)) = Some (JBool false) /\
      snd (fst out) = st /\ snd out = []) /\
   (forall st : Mongo.state,
      Mongo.isConnected st = true -> is_some (Mongo.sock st) = true ->
      let out := Mongo.handler e req st in
      status (fst (fst out)) = 500 /\
      json_field "success" (fst (fst out)) = Some (JBool false) /\
      snd (fst out) = st /\ snd out = [])) /\
  (pathname req = "/api/send" ->
   forall st : Tmp.state,
     Tmp.isConnected st = true -> is_some (Tmp.sock st) = true ->
     now e - Tmp.lastActivity st <= Tmp.CONNECTION_TIMEOUT ->
     let out := Tmp.handler (H := L) e req st in
     status (fst (fst out)) = 500 /\
     json_field "success" (fst (fst out)) = Some (JBool false) /\
     snd (fst out) = st /\ snd out = []).
Proof.
  destruct req as [m path pr ho bo]. simpl. intros -> -> Hp Hns Hm.
  split; intros ->.
  - split.
    + intros [[s|] g c q n d]; simpl; intros -> Hs; [|discriminate].
      open_send. rewrite Hp, Hm. simpl.
      destruct (prop "phone" b) eqn:E; try (repeat split; fail).
      exfalso. eapply Hns. reflexivity.
    + intros [[s|] q c d]; simpl; intros -> Hs; [|discriminate].
      open_send. rewrite Hp, Hm. simpl.
      destruct (prop "phone" b) eqn:E; try (repeat split; fail).
      exfalso. eapply Hns. reflexivity.
  - intros [[s|] q c l d]; simpl; intros -> Hs Hidle; [|discriminate].
    assert (Hgt : (now e - l >? Tmp.CONNECTION_TIMEOUT) = false).
    { rewrite Z.gtb_ltb. apply Z.ltb_ge. exact Hidle. }
    open_send. rewrite Hp, Hm, Hgt. simpl.
    destruct (prop "phone" b) eqn:E; try (repeat split; fail).
    exfalso. eapply Hns. reflexivity.
Qed.

Lemma X4_send_phone_not_a_string_witness :
  status (fst (fst (Express.app (calm 10)
                      (post_request "/send-message"
                         [("phone", JNum 81234567890); ("message", JStr "hi")])
                      (express_connected 0 [creds_file])))) = 500.
Proof.
  assert (Hns : forall s,
             prop "phone" [("phone", JNum 81234567890); ("message", JStr "hi")]
             <> JStr s) by (intros s; simpl; discriminate).
  exact (proj1 (proj1 (proj1 (X4_send_phone_not_a_string baileys (calm 10)
                  (post_request "/send-message"
                     [("phone", JNum 81234567890); ("message", JStr "hi")])
                  eq_refl eq_refl eq_refl Hns eq_refl) eq_refl)
                  (express_connected 0 [creds_file]) eq_refl eq_refl)).
Defined.

(** X5. With a live session, an error thrown by the recipient lookup or by
    the send is answered 500 with the error's message in every variant.
    After a failing lookup nothing is sent; after a failing send the Tmp
    variant has not moved [lastActivity].  The state stays as it is. *)
Theorem X5_send_protocol_error (L : Library) (e : env) (req : request)
    (b : fields) (p msg : string) :
  method req = "POST" ->
  body req = Some b ->
  prop "phone" b = JStr p ->
  truthy (JStr p) = true ->
  truthy (prop "message" b) = true ->
  let jid := formatPhoneNumber p ++ "@s.whatsapp.net" in
  let calls :=
    match onWhatsApp e jid with
    | Returns _ => [EOnWhatsApp jid; ESendMessage jid (prop "message" b)]
    | Throws _ => [EOnWhatsApp jid]
    end in
  onWhatsApp e jid = Throws msg \/
  (onWhatsApp e jid = Returns true /\
   sendMessage e jid (prop "message" b) = Throws msg) ->
  (pathname req = "/send-message" ->
   (forall st : Express.state,
      Express.isConnected st = true -> is_some (Express.sock st) = true ->
      Express.app e req st = (error_500 msg, st, calls)) /\
   (forall st : Mongo.state,
      Mongo.isConnected st = true -> is_some (Mongo.sock st) = true ->
      Mongo.handler e req st = (error_500 msg, st, calls))) /\
  (pathname req = "/api/send" ->
   forall st : Tmp.state,
     Tmp.isConnected st = true -> is_some (Tmp.sock st) = true ->
     now e - Tmp.lastActivity st <= Tmp.CONNECTION_TIMEOUT ->
     Tmp.handler (H := L) e req st = (error_500 msg, st, calls)).
Proof.
  destruct req as [m path pr ho bo]. simpl. intros -> -> Hph Hp Hm.
  cbv zeta. intros Herr.
  split; intros ->.
  - split.
    + intros [[s|] g c q n d]; simpl; intros -> Hs; [|discriminate].
      send_case Hph Hp Hm.
      destruct Herr as [-> | [-> Hsend]]; simpl; [reflexivity|].
      rewrite Hsend. reflexivity.
    + intros [[s|] q c d]; simpl; intros -> Hs; [|discriminate].
      send_case Hph Hp Hm.
      destruct Herr as [-> | [-> Hsend]]; simpl; [reflexivity|].
      rewrite Hsend. reflexivity.
  - intros [[s|] q c l d]; simpl; intros -> Hs Hidle; [|discriminate].
    assert (Hgt : (now e - l >? Tmp.CONNECTION_TIMEOUT) = false).
    { rewrite Z.gtb_ltb. apply Z.ltb_ge. exact Hidle. }
    send_case Hph Hp Hm. rewrite Hgt. simpl.
    destruct Herr as [-> | [-> Hsend]]; simpl; [reflexivity|].
    rewrite Hsend. reflexivity.
Qed.

Lemma X5_send_protocol_error_witness :
  Express.app (failing_send 10 "Timed Out")
    (post_request "/send-message" hi_body) (express_connected 0 [creds_file])
  = (error_500 "Timed Out", express_connected 0 [creds_file],
     [EOnWhatsApp "6281234567890@s.whatsapp.net";
      ESendMessage "6281234567890@s.whatsapp.net" (JStr "hi")]).
Proof.
  exact (proj1 (proj1 (X5_send_protocol_error baileys (failing_send 10 "Timed Out")
                  (post_request "/send-message" hi_body) (b := hi_body)
                  (p := "081234567890") (msg := "Timed Out")
                  eq_refl eq_refl eq_refl eq_refl eq_refl
                  (or_intror (conj eq_refl eq_refl))) eq_refl)
           (express_connected 0 [creds_file]) eq_refl eq_refl).
Defined.

(** ** The Express variant: reconnecting, clearing, what the routes touch *)

(** X6. In the Express variant a close for another reason than logged-out
    that finds fewer than MAX_RETRY_ATTEMPTS attempts schedules exactly one
    reconnect, 5 s times the attempt count later (0, 5 or 10 s: the 15 s cap
    is never reached), and only clears the connected flag.  When the same
    update carries a pairing code the counter has just been reset, so the
    reconnect is scheduled with no delay. *)
Theorem X6_express_backoff (L : Library) (u : update) (st : Express.state) :
  conn u = Some Close ->
  is_loggedOut (statusCode u) = false ->
  (truthy_str (qr u) = false ->
   0 <= Express.connectionAttempts st < Express.MAX_RETRY_ATTEMPTS ->
   Express.connection_update u st
   = (Returns tt, Express.set_isConnected false st,
      [ESetTimeout (5000 * Express.connectionAttempts st)]) /\
   5000 * Express.connectionAttempts st <= 10000) /\
  (truthy_str (qr u) = true ->
   snd (Express.connection_update u st) = [ESetTimeout 0] /\
   Express.connectionAttempts (snd (fst (Express.connection_update u st))) = 0).
Proof.
  destruct u as [c code q0 t0]. destruct st as [s g c' q n d].
  cbn -[Z.mul Z.min Z.ltb].
  intros -> Hout. split.
  - intros Hq [H0 Hn]. unfold Express.MAX_RETRY_ATTEMPTS in Hn.
    assert (Hlt : (n <? Express.MAX_RETRY_ATTEMPTS) = true)
      by (apply Z.ltb_lt; exact Hn).
    unfold Express.connection_update. cbn -[Z.mul Z.min Z.ltb].
    rewrite Hout, Hq. cbn -[Z.mul Z.min Z.ltb].
    run. cbn -[Z.mul Z.min Z.ltb]. rewrite Hlt. cbn -[Z.mul Z.min Z.ltb].
    rewrite Z.min_l by lia. split; [reflexivity | lia].
  - intros Hq.
    unfold Express.connection_update. simpl. rewrite Hout, Hq. simpl.
    run. simpl. split; reflexivity.
Qed.

Lemma X6_express_backoff_witness :
  Express.connection_update (H := baileys) lost_close
    (express_connected 2 [creds_file])
  = (Returns tt,
     Express.set_isConnected false (express_connected 2 [creds_file]),
     [ESetTimeout 10000]).
Proof.
  assert (Hn : 0 <= Express.connectionAttempts (express_connected 2 [creds_file])
               < Express.MAX_RETRY_ATTEMPTS)
    by (split; vm_compute; [discriminate | reflexivity]).
  exact (proj1 (proj1 (X6_express_backoff baileys lost_close
                         (express_connected 2 [creds_file]) eq_refl eq_refl)
                  eq_refl Hn)).
Defined.

(** X7. In the Express variant, when [connectToWhatsApp] fails inside (the
    version fetch, the auth state or the socket), the handle is left as it
    was and a retry is scheduled 10 s later only while the incremented
    counter is below MAX_RETRY_ATTEMPTS; otherwise the counter returns to
    zero and nothing is scheduled.  From a zero counter, three failures in a
    row schedule two retries and then give up. *)
Theorem X7_express_connect_failures (e1 e2 e3 : env) (st : Express.state)
    (m1 m2 m3 : string) :
  made e1 = Throws m1 -> made e2 = Throws m2 -> made e3 = Throws m3 ->
  (let out := Express.connectToWhatsApp e1 st in
   Express.sock (snd (fst out)) = Express.sock st /\
   count is_make (snd out) = 0%nat /\
   (if Express.connectionAttempts st + 1 <? Express.MAX_RETRY_ATTEMPTS
    then (snd out = [ESetTimeout 10000] /\
          Express.connectionAttempts (snd (fst out))
          = Express.connectionAttempts st + 1)
    else (snd out = [] /\ Express.connectionAttempts (snd (fst out)) = 0))) /\
  (Express.connectionAttempts st = 0 ->
   let o1 := Express.connectToWhatsApp e1 st in
   let o2 := Express.connectToWhatsApp e2 (snd (fst o1)) in
   let o3 := Express.connectToWhatsApp e3 (snd (fst o2)) in
   snd o1 = [ESetTimeout 10000] /\ snd o2 = [ESetTimeout 10000] /\
   snd o3 = [] /\ snd (fst o3) = st).
Proof.
  destruct st as [s g c q n d]. simpl. intros H1 H2 H3. split.
  - cbv zeta. unfold Express.connectToWhatsApp. simpl.
    rewrite H1. run. simpl.
    destruct (n + 1 <? Express.MAX_RETRY_ATTEMPTS); simpl; repeat split.
  - intros ->. cbv zeta. unfold Express.connectToWhatsApp. simpl.
    rewrite H1. run. simpl. rewrite H2. simpl. rewrite H3. simpl.
    repeat split.
Qed.

Lemma X7_express_connect_failures_witness :
  let s1 := snd (fst (Express.connectToWhatsApp (broken 1 "fetch failed")
                        (Express.initial [creds_file]))) in
  let s2 := snd (fst (Express.connectToWhatsApp (broken 2 "fetch failed") s1)) in
  snd (fst (Express.connectToWhatsApp (broken 3 "fetch failed") s2))
  = Express.initial [creds_file].
Proof.
  destruct (proj2 (X7_express_connect_failures (broken 1 "fetch failed")
                     (broken 2 "fetch failed") (broken 3 "fetch failed")
                     (Express.initial [creds_file])
                     eq_refl eq_refl eq_refl) eq_refl) as (_ & _ & _ & H).
  exact H.
Defined.

Section ExpressRoutes.

Lemma send_message_frame (e : env) (req : request) (st : Express.state) :
  let out := finish (Express.send_message e req) st in
  snd (fst out) = st /\ forallb is_send (snd out) = true.
Proof.
  cbv zeta. unfold Express.send_message, formatPhone. run.
  destruct (body req) as [b|];
    (destruct (negb (truthy (prop "phone" _)) || negb (truthy (prop "message" _)))%bool;
     [split; reflexivity|]);
    (destruct (negb (Express.isConnected st) || negb _)%bool;
     [split; reflexivity|]);
    (destruct (prop "phone" _); try (split; reflexivity));
    (destruct (onWhatsApp e _) as [[|]|m1]; try (split; reflexivity));
    destruct (sendMessage e _ _) as [i|m2]; split; reflexivity.
Qed.

(** What a request does in the Express variant: it is the clear route, or
    it keeps the state and calls nothing but the lookup and the send. *)
Lemma app_cases (e : env) (req : request) (st : Express.state) :
  Express.app e req st = finish Express.clear_auth st \/
  (snd (fst (Express.app e req st)) = st /\
   forallb is_send (snd (Express.app e req st)) = true).
Proof.
  unfold Express.app.
  destruct (_ && _)%bool; [right; split; reflexivity|].
  destruct (_ && _)%bool; [left; reflexivity|].
  destruct (_ && _)%bool; [right|].
  { unfold Express.get_qr. run.
    destruct (Express.currentQR st) as [x|]; [|split; reflexivity].
    destruct (truthy_str (Some x)); split; reflexivity. }
  destruct (_ && _)%bool; [right; apply send_message_frame|].
  destruct (_ && _)%bool; [right; split; reflexivity|].
  destruct (_ && _)%bool; right; split; reflexivity.
Qed.

Lemma clear_auth_cases (st : Express.state) :
  let wipe := remove_auth_files (Express.authFolder st) in
  match fst (fst wipe) with
  | Returns _ =>
      snd (fst (finish Express.clear_auth st))
      = {| Express.sock := None; Express.qrGenerated := false;
           Express.isConnected := false; Express.currentQR := None;
           Express.connectionAttempts := 0; Express.authFolder := Dir [] |}
  | Throws msg =>
      finish Express.clear_auth st
      = (error_500 msg, Express.set_authFolder (snd (fst wipe)) st, snd wipe)
  end.
Proof.
  destruct st as [s g c q n d]. cbv zeta. simpl.
  pose proof (remove_auth_files_done d) as Hd.
  unfold Express.clear_auth, Express.remove_files. run. simpl.
  destruct (remove_auth_files d) as [[[[]|msg] d'] t]; simpl in *.
  - rewrite (Hd eq_refl). destruct s; reflexivity.
  - rewrite app_nil_r. reflexivity.
Qed.

End ExpressRoutes.

(** X8. Of the handlers the Express variant registers, only the one of POST
    /clear-auth changes anything.  The handlers of /qr, /send-message,
    /status and /health, whatever the request and the state, leave the
    handle, the flags, the pairing code, the attempt counter and the
    credential folder as they are and reach the protocol layer with nothing
    but the recipient lookup and the send; so does the dashboard at GET /,
    and so does a request to one of these routes at its registered path. *)
Theorem X8_express_routes_frame (e : env) (req : request) (st : Express.state) :
  let kept (out : response * Express.state * list effect) :=
    snd (fst out) = st /\ forallb is_send (snd out) = true in
  kept (finish Express.get_qr st) /\
  kept (finish (Express.send_message e req) st) /\
  kept (finish (Express.get_status e) st) /\
  kept (finish (Express.get_health e) st) /\
  (In (method req, pathname req)
      [("GET", "/"); ("GET", "/qr"); ("POST", "/send-message");
       ("GET", "/status"); ("GET", "/health")] ->
   kept (Express.app e req st)).
Proof.
  cbv zeta.
  assert (Hq : snd (fst (finish Express.get_qr st)) = st /\
               forallb is_send (snd (finish Express.get_qr st)) = true).
  { unfold Express.get_qr. run.
    destruct (Express.currentQR st) as [x|]; [|split; reflexivity].
    destruct (truthy_str (Some x)); split; reflexivity. }
  split; [exact Hq|].
  split; [apply send_message_frame|].
  split; [split; reflexivity|].
  split; [split; reflexivity|].
  destruct req as [m path pr ho bo]. simpl.
  intros [E|[E|[E|[E|[E|[]]]]]]; inversion E; subst; unfold Express.app; simpl.
  - split; reflexivity.
  - exact Hq.
  - apply (send_message_frame e
             {| method := "POST"; pathname := "/send-message"; protocol := pr;
                host := ho; body := bo |} st).
  - split; reflexivity.
  - split; reflexivity.
Qed.

Lemma X8_express_routes_frame_witness :
  snd (fst (Express.app (calm 10) (post_request "/send-message" hi_body)
              (express_connected 1 [creds_file])))
  = express_connected 1 [creds_file].
Proof.
  exact (proj1 (proj2 (proj2 (proj2 (proj2
           (X8_express_routes_frame (calm 10)
              (post_request "/send-message" hi_body)
              (express_connected 1 [creds_file])))))
           (or_intror (or_intror (or_introl eq_refl))))).
Defined.

(** X9. In the Express variant the clear route removes the files first: when
    the removal throws, the answer is 500 with the error's message and the
    session is left up.  The handle is not ended, the flags, the pairing
    code and the attempt counter keep their values, no reconnect is
    scheduled, and only the files removed before the error are gone. *)
Theorem X9_express_clear_failure (e : env) (req : request)
    (st : Express.state) (msg : string) :
  method req = "POST" ->
  pathname req = "/clear-auth" ->
  let wipe := remove_auth_files (Express.authFolder st) in
  fst (fst wipe) = Throws msg ->
  Express.app e req st
  = (error_500 msg, Express.set_authFolder (snd (fst wipe)) st, snd wipe) /\
  count is_timer (snd wipe) = 0%nat /\
  count is_end (snd wipe) = 0%nat.
Proof.
  destruct req as [m path pr ho bo]. simpl. intros -> ->. cbv zeta. intros Hw.
  pose proof (clear_auth_cases st) as Hc. cbv zeta in Hc. rewrite Hw in Hc.
  split; [exact Hc|]. split; [apply remove_auth_files_no_timer|].
  destruct (Express.authFolder st) as [m|fs]; simpl; [reflexivity|].
  pose proof (unlink_files_only_unlinks fs is_end (fun _ => eq_refl)) as Hn.
  destruct (unlink_files fs) as [[o r'] t]. exact Hn.
Qed.

Lemma X9_express_clear_failure_witness :
  Express.app (calm 10) (post_request "/clear-auth" [])
    (express_connected 2 [creds_file; stuck_file])
  = (error_500 "EPERM: operation not permitted, unlink",
     express_connected 2 [stuck_file],
     [EReaddir; EUnlink "creds.json"; EUnlink "session-1.json"]).
Proof.
  exact (proj1 (X9_express_clear_failure (calm 10)
                  (post_request "/clear-auth" [])
                  (express_connected 2 [creds_file; stuck_file])
                  (msg := "EPERM: operation not permitted, unlink")
                  eq_refl eq_refl eq_refl)).
Defined.

(** X10. The Express variant keeps its pairing state consistent: at start
    and after every connection update, connect call and request, the
    [qrGenerated] flag is up exactly when a pairing code is held, and never
    together with the connected flag. *)
Theorem X10_express_pairing_invariant (L : Library) (st : Express.state) :
  qr_consistent st = true ->
  (forall u, qr_consistent (snd (fst (Express.connection_update u st))) = true) /\
  (forall e, qr_consistent (snd (fst (Express.connectToWhatsApp e st))) = true) /\
  (forall e req, qr_consistent (snd (fst (Express.app e req st))) = true).
Proof.
  intros Hi. split; [|split].
  - intros [c code q0 t0]. destruct st as [s g c' q n d].
    unfold qr_consistent in *. simpl in *.
    unfold Express.connection_update, Express.remove_files. simpl. run.
    destruct q0 as [x|]; simpl;
      [destruct (x =? "")%string eqn:Ex; simpl|];
      (destruct c as [[| |]|]; simpl;
       [ destruct (is_loggedOut code); simpl;
         [ destruct (remove_auth_files d) as [[[[]|m] d'] t]; simpl
         | try destruct (n <? Express.MAX_RETRY_ATTEMPTS); simpl;
           try (destruct (remove_auth_files d) as [[[[]|m] d'] t]; simpl) ]
       | destruct s as [[[u|] pr]|]; simpl
       | | ]);
      rewrite ?Ex; simpl; try reflexivity; try exact Hi.
    all: destruct c', g, (truthy_str q); simpl in *; discriminate || reflexivity.
  - intros e. destruct st as [s g c' q n d].
    unfold qr_consistent in *. simpl in *.
    unfold Express.connectToWhatsApp. simpl. run.
    destruct (made e); simpl; [exact Hi|].
    destruct (_ <? _); exact Hi.
  - intros e req. destruct (app_cases e req st) as [E | [E _]].
    + rewrite E. pose proof (clear_auth_cases st) as Hc. cbv zeta in Hc.
      destruct (fst (fst (remove_auth_files (Express.authFolder st)))).
      * rewrite Hc. reflexivity.
      * rewrite Hc. destruct st; exact Hi.
    + rewrite E. exact Hi.
Qed.

Lemma X10_express_pairing_invariant_witness :
  qr_consistent (Express.initial [creds_file]) = true /\
  qr_consistent
    (snd (fst (Express.connection_update (H := baileys) (pairing "2@abc")
                 (Express.initial [creds_file])))) = true.
Proof.
  split; [reflexivity|].
  exact (proj1 (X10_express_pairing_invariant baileys
                  (Express.initial [creds_file]) eq_refl) (pairing "2@abc")).
Defined.

(** ** What a computation keeps and what it never calls *)

Section Frames.

Context {S X : Type} (f : S -> X) (p : effect -> bool).

Lemma keeps_ret {A} (a : A) : keeps f (ret (S := S) a).
Proof. intros s. reflexivity. Qed.

Lemma keeps_throw {A} (msg : string) : keeps f (throw (S := S) (A := A) msg).
Proof. intros s. reflexivity. Qed.

Lemma keeps_get : keeps f (get (S := S)).
Proof. intros s. reflexivity. Qed.

Lemma keeps_emit (e : effect) : keeps f (emit (S := S) e).
Proof. intros s. reflexivity. Qed.

Lemma keeps_modify (g : S -> S) :
  (forall s, f (g s) = f s) -> keeps f (modify g).
Proof. intros H s. apply H. Qed.

Lemma keeps_lift_outcome {A} (o : outcome A) : keeps f (lift_outcome (S := S) o).
Proof. destruct o; intros s; reflexivity. Qed.

Lemma keeps_bind {A B} (m : M S A) (k : A -> M S B) :
  keeps f m -> (forall a, keeps f (k a)) -> keeps f (bind m k).
Proof.
  intros Hm Hk s. unfold bind. specialize (Hm s).
  destruct (m s) as [[[a|msg] s1] t1]; simpl in *; [|exact Hm].
  specialize (Hk a s1). destruct (k a s1) as [[r s2] t2]. simpl in *.
  now rewrite Hk.
Qed.

Lemma keeps_try_catch {A} (m : M S A) (h : string -> M S A) :
  keeps f m -> (forall msg, keeps f (h msg)) -> keeps f (try_catch m h).
Proof.
  intros Hm Hh s. unfold try_catch. specialize (Hm s).
  destruct (m s) as [[[a|msg] s1] t1]; simpl in *; [exact Hm|].
  specialize (Hh msg s1). destruct (h msg s1) as [[r s2] t2]. simpl in *.
  now rewrite Hh.
Qed.

Lemma keeps_when (b : bool) (m : M S unit) : keeps f m -> keeps f (when b m).
Proof. destruct b; [trivial | intros _ s; reflexivity]. Qed.

Lemma keeps_finish (m : M S response) (s : S) :
  keeps f m -> f (snd (fst (finish m s))) = f s.
Proof.
  intros Hm. unfold finish. specialize (Hm s).
  destruct (m s) as [[[r|msg] s1] t1]; exact Hm.
Qed.

Lemma silent_ret {A} (a : A) : silent p (ret (S := S) a).
Proof. intros s. reflexivity. Qed.

Lemma silent_throw {A} (msg : string) : silent p (throw (S := S) (A := A) msg).
Proof. intros s. reflexivity. Qed.

Lemma silent_get : silent p (get (S := S)).
Proof. intros s. reflexivity. Qed.

Lemma silent_modify (g : S -> S) : silent p (modify g).
Proof. intros s. reflexivity. Qed.

Lemma silent_emit (e : effect) : p e = false -> silent p (emit (S := S) e).
Proof. intros H s. unfold count. simpl. now rewrite H. Qed.

Lemma silent_lift_outcome {A} (o : outcome A) :
  silent p (lift_outcome (S := S) o).
Proof. destruct o; intros s; reflexivity. Qed.

Lemma silent_bind {A B} (m : M S A) (k : A -> M S B) :
  silent p m -> (forall a, silent p (k a)) -> silent p (bind m k).
Proof.
  intros Hm Hk s. unfold bind. specialize (Hm s).
  destruct (m s) as [[[a|msg] s1] t1]; simpl in *; [|exact Hm].
  specialize (Hk a s1). destruct (k a s1) as [[r s2] t2]. simpl in *.
  rewrite count_app. now rewrite Hm, Hk.
Qed.

Lemma silent_try_catch {A} (m : M S A) (h : string -> M S A) :
  silent p m -> (forall msg, silent p (h msg)) -> silent p (try_catch m h).
Proof.
  intros Hm Hh s. unfold try_catch. specialize (Hm s).
  destruct (m s) as [[[a|msg] s1] t1]; simpl in *; [exact Hm|].
  specialize (Hh msg s1). destruct (h msg s1) as [[r s2] t2]. simpl in *.
  rewrite count_app. now rewrite Hm, Hh.
Qed.

Lemma silent_when (b : bool) (m : M S unit) : silent p m -> silent p (when b m).
Proof. destruct b; [trivial | intros _ s; reflexivity]. Qed.

Lemma silent_finish (m : M S response) (s : S) :
  silent p m -> count p (snd (finish m s)) = 0%nat.
Proof.
  intros Hm. unfold finish. specialize (Hm s).
  destruct (m s) as [[[r|msg] s1] t1]; exact Hm.
Qed.

End Frames.

Ltac frame :=
  repeat first
    [ apply keeps_ret | apply keeps_throw | apply keeps_get | apply keeps_emit
    | apply keeps_lift_outcome
    | apply keeps_modify; intros []; reflexivity
    | apply keeps_when
    | apply keeps_bind; [|intros ?]
    | apply keeps_try_catch; [|intros ?]
    | match goal with
      | |- keeps _ (match ?x with _ => _ end) => destruct x
      end ].

Ltac hush :=
  repeat first
    [ apply silent_ret | apply silent_throw | apply silent_get
    | apply silent_modify | apply silent_lift_outcome
    | apply silent_emit; reflexivity
    | apply silent_when
    | apply silent_bind; [|intros ?]
    | apply silent_try_catch; [|intros ?]
    | match goal with
      | |- silent _ (match ?x with _ => _ end) => destruct x
      end ].

Section MongoFrames.

Context {L : Library}.

Lemma mongo_init_keeps (e : env) : keeps Mongo.auth_state (Mongo.initWhatsApp e).
Proof. unfold Mongo.initWhatsApp, Mongo.initWhatsApp_new. frame. Qed.

Lemma mongo_routes_keep (e : env) (req : request) :
  keeps Mongo.auth_state (Mongo.routes e req).
Proof.
  unfold Mongo.routes, Mongo.route_qr, Mongo.route_status, Mongo.route_send,
    Mongo.route_health, formatPhone.
  cbv zeta. pose proof (mongo_init_keeps e) as Hi. frame; exact Hi.
Qed.

Lemma mongo_update_keeps (u : update) :
  keeps Mongo.auth_state (Mongo.connection_update u).
Proof. unfold Mongo.connection_update. cbv zeta. frame. Qed.

End MongoFrames.

(** ** The Mongo variant: the store and the pairing poll *)

(** X11. Nothing in the Mongo variant's own code changes the stored
    credential documents: no request, no connection update and no call of
    [initWhatsApp] adds, rewrites or removes one.  No request reads a
    directory, unlinks a file, sets a timer or ends a handle either. *)
Theorem X11_mongo_store_untouched (L : Library) (st : Mongo.state) :
  (forall e req,
     let out := Mongo.handler e req st in
     Mongo.auth_state (snd (fst out)) = Mongo.auth_state st /\
     count (fun x => is_readdir x || is_timer x || is_end x)%bool (snd out)
     = 0%nat) /\
  (forall u,
     Mongo.auth_state (snd (fst (Mongo.connection_update u st)))
     = Mongo.auth_state st) /\
  (forall e,
     Mongo.auth_state (snd (fst (Mongo.initWhatsApp e st)))
     = Mongo.auth_state st).
Proof.
  split; [|split].
  - intros e req. cbv zeta. unfold Mongo.handler.
    destruct (method req =? "OPTIONS")%string; [split; reflexivity|].
    split.
    + apply keeps_finish, mongo_routes_keep.
    + apply silent_finish.
      unfold Mongo.routes, Mongo.route_qr, Mongo.route_status,
        Mongo.route_send, Mongo.route_health, Mongo.initWhatsApp,
        Mongo.initWhatsApp_new, formatPhone.
      cbv zeta. hush.
  - intros u. apply mongo_update_keeps.
  - intros e. apply mongo_init_keeps.
Qed.

(** X12. In the Mongo variant every GET /qr that finds the connected flag
    down makes a new socket and installs it as the handle, whether or not a
    handle is already waiting to be paired; the one it replaces is not
    ended.  The answer is the pairing image when one is held, and otherwise
    success:false, also on the very request that made the socket. *)
Theorem X12_mongo_qr_poll (e : env) (p h : string) (b : option fields)
    (st : Mongo.state) (s' : socket) :
  Mongo.isConnected st = false ->
  made e = Returns s' ->
  let out := Mongo.handler e
               {| method := "GET"; pathname := "/qr"; protocol := p;
                  host := h; body := b |} st in
  snd (fst out) = Mongo.set_sock (Some s') st /\
  snd out = [EMakeSocket (map Mongo.key (Mongo.auth_state st))] /\
  status (fst (fst out)) = 200 /\
  json_field "success" (fst (fst out))
  = Some (JBool (truthy_str (Mongo.qrCodeData st))) /\
  json_field "qr" (fst (fst out))
  = (if truthy_str (Mongo.qrCodeData st)
     then Some (str_or_null (Mongo.qrCodeData st)) else None).
Proof.
  destruct st as [s q c d]. simpl. intros -> Hs. cbv zeta.
  unfold Mongo.handler, Mongo.routes, Mongo.route_qr, Mongo.initWhatsApp,
    Mongo.initWhatsApp_new. simpl. run. simpl. rewrite Hs.
  destruct s as [s|]; simpl; destruct (truthy_str q); simpl; repeat split.
Qed.

Lemma X12_mongo_qr_poll_witness :
  let waiting := {| Mongo.sock := Some fresh_socket; Mongo.qrCodeData := None;
                    Mongo.isConnected := false; Mongo.auth_state := [] |} in
  snd (Mongo.handler (calm 10) (get_request "/qr") waiting) = [EMakeSocket []].
Proof.
  cbv zeta.
  exact (proj1 (proj2 (X12_mongo_qr_poll (calm 10) "http" "localhost:3000" None
                  {| Mongo.sock := Some fresh_socket; Mongo.qrCodeData := None;
                     Mongo.isConnected := false; Mongo.auth_state := [] |}
                  (s' := fresh_socket) eq_refl eq_refl))).
Defined.

(** ** The Tmp variant: timers, the idle stamp, waiting for the connection *)

Section TmpFrames.

Context {L : Library}.


Lemma tmp_remove_files_keeps_lastActivity :
  keeps Tmp.lastActivity Tmp.remove_files.
Proof.
  intros [s q c l d]. unfold Tmp.remove_files. simpl.
  destruct (remove_auth_files d) as [[o d'] t]. reflexivity.
Qed.





(** A quiet update changes nothing and settles nothing. *)
Lemma tmp_update_quiet (u : update) (st : Tmp.state) :
  quiet u = true -> Tmp.connection_update u st = (Returns None, st, []).
Proof.
  destruct u as [c code q0 t0]. destruct st as [s q c' l d].
  unfold quiet. simpl. intros H. apply andb_prop in H. destruct H as [Hq Hc].
  apply negb_true_iff in Hq.
  unfold Tmp.connection_update. simpl. run.
  destruct q0 as [x|]; simpl in *; [rewrite Hq|];
    destruct c as [[| |]|]; try discriminate; reflexivity.
Qed.

Lemma tmp_await_quiet (qs rest : list update) (st : Tmp.state) :
  forallb quiet qs = true ->
  Tmp.await_settled (qs ++ rest)%list st = Tmp.await_settled rest st.
Proof.
  induction qs as [|u r IH]; simpl; [reflexivity|].
  intros H. apply andb_prop in H. destruct H as [Hu Hr].
  unfold bind. rewrite (tmp_update_quiet u st Hu). rewrite (IH Hr).
  destruct (Tmp.await_settled rest st) as [[o s2] t2]. reflexivity.
Qed.

End TmpFrames.


(** X14. In the Tmp variant a request to any path other than /api/connect,
    /api/qr and /api/send leaves [lastActivity] as it is: status polling,
    the dashboard and the clear route never extend the idle window. *)
Theorem X14_tmp_polling_is_not_activity (L : Library) (e : env) (req : request)
    (st : Tmp.state) :
  (pathname req =? "/api/connect")%string = false ->
  (pathname req =? "/api/qr")%string = false ->
  (pathname req =? "/api/send")%string = false ->
  Tmp.lastActivity (snd (fst (Tmp.handler (H := L) e req st)))
  = Tmp.lastActivity st.
Proof.
  intros Hc Hq Hs. unfold Tmp.handler.
  destruct (method req =? "OPTIONS")%string; [reflexivity|].
  apply keeps_finish.
  unfold Tmp.keepAlive, Tmp.routes, Tmp.route_status, Tmp.route_clear.
  cbv zeta. rewrite Hc, Hq, Hs. simpl.
  pose proof tmp_remove_files_keeps_lastActivity as Hr.
  frame; exact Hr.
Qed.

Lemma X14_tmp_polling_is_not_activity_witness :
  Tmp.lastActivity
    (snd (fst (Tmp.handler (H := baileys) (calm 200000)
                 (get_request "/api/status") (tmp_connected 0 [creds_file]))))
  = 0.
Proof.
  exact (X14_tmp_polling_is_not_activity baileys (calm 200000)
           (get_request "/api/status") (tmp_connected 0 [creds_file])
           eq_refl eq_refl eq_refl).
Defined.

(** X15. In the Tmp variant, POST /api/connect without a live session makes
    a socket and waits; when none of the updates that arrive carries a
    pairing code, a close or an open, the wait ends with the timer's error
    and the answer is 500 "Connection timeout".  The socket just made stays
    installed as the handle and is not ended. *)
Theorem X15_tmp_connect_timeout (L : Library) (e : env) (p h : string)
    (b : option fields) (st : Tmp.state) (s : socket) :
  (is_some (Tmp.sock st) && Tmp.isConnected st)%bool = false ->
  made e = Returns s ->
  forallb quiet (events e) = true ->
  Tmp.handler (H := L) e
    {| method := "POST"; pathname := "/api/connect"; protocol := p;
       host := h; body := b |} st
  = (error_500 "Connection timeout", Tmp.set_sock (Some s) st,
     [EMakeSocket (stored_files (Tmp.authFolder st))]).
Proof.
  destruct st as [s0 q c l d]. simpl. intros Hlive Hs Hq.
  pose proof (tmp_await_quiet (events e) []
                (Tmp.set_sock (Some s)
                   {| Tmp.sock := s0; Tmp.qrCode := q; Tmp.isConnected := c;
                      Tmp.lastActivity := l; Tmp.authFolder := d |}) Hq) as Ha.
  rewrite app_nil_r in Ha. simpl in Ha.
  unfold Tmp.handler, Tmp.routes, Tmp.keepAlive, Tmp.route_connect,
    Tmp.connectToWhatsApp, Tmp.connect_new. simpl. run. simpl.
  rewrite Hs.
  destruct s0 as [s0|]; simpl in *; [subst c|]; simpl; rewrite Ha; reflexivity.
Qed.

Lemma X15_tmp_connect_timeout_witness :
  Tmp.handler (H := baileys) (eventful 5 [connecting; connecting])
    (post_request "/api/connect" []) (Tmp.initial 0 [creds_file])
  = (error_500 "Connection timeout",
     Tmp.set_sock (Some fresh_socket) (Tmp.initial 0 [creds_file]),
     [EMakeSocket ["creds.json"]]).
Proof.
  exact (X15_tmp_connect_timeout baileys (eventful 5 [connecting; connecting])
           "http" "localhost:3000" (Some []) (Tmp.initial 0 [creds_file])
           (s := fresh_socket) eq_refl eq_refl eq_refl).
Defined.

(** X16. In the Tmp variant the first update that is not quiet decides a
    waiting POST /api/connect, and the updates after it are not looked at.
    An open answers 200 with connected:true, raises the connected flag,
    drops the pairing code and stamps [lastActivity] with the time of the
    update.  A close for another reason than logged-out answers 500
    "Connection closed": the flag is down, the credential files stay, and
    the closed socket stays installed as the handle. *)
Theorem X16_tmp_connect_settles (L : Library) (e : env) (p h : string)
    (b : option fields) (st : Tmp.state) (s : socket)
    (qs rest : list update) (u : update) :
  (is_some (Tmp.sock st) && Tmp.isConnected st)%bool = false ->
  made e = Returns s ->
  events e = (qs ++ u :: rest)%list ->
  forallb quiet qs = true ->
  truthy_str (qr u) = false ->
  let out := Tmp.handler (H := L) e
               {| method := "POST"; pathname := "/api/connect"; protocol := p;
                  host := h; body := b |} st in
  let made_one := [EMakeSocket (stored_files (Tmp.authFolder st))] in
  (conn u = Some Open ->
   out = (respond 200 [("success", JBool true); ("connected", JBool true)],
          {| Tmp.sock := Some s; Tmp.qrCode := None; Tmp.isConnected := true;
             Tmp.lastActivity := at_time u;
             Tmp.authFolder := Tmp.authFolder st |},
          made_one)) /\
  (conn u = Some Close -> is_loggedOut (statusCode u) = false ->
   out = (error_500 "Connection closed",
          Tmp.set_isConnected false (Tmp.set_sock (Some s) st),
          made_one)).
Proof.
  destruct st as [s0 q c l d]. destruct u as [cu code qu tu]. simpl.
  intros Hlive Hs He Hq Hqu. cbv zeta.
  remember ({| conn := cu; statusCode := code; qr := qu; at_time := tu |}
            :: rest) as us eqn:Hus.
  pose proof (fun st' => tmp_await_quiet qs us st' Hq) as Ha.
  assert (Hgo : forall st0 : Tmp.state,
            Tmp.sock st0 = s0 -> Tmp.isConnected st0 = c ->
            Tmp.connectToWhatsApp e st0
            = (let '(r, s2, t2) :=
                 Tmp.await_settled us (Tmp.set_sock (Some s) st0) in
               (r, s2, EMakeSocket (stored_files (Tmp.authFolder st0)) :: t2))).
  { intros st0 H1 H2. unfold Tmp.connectToWhatsApp, Tmp.connect_new.
    run. rewrite H1, H2, Hs, He.
    destruct s0 as [s0|]; simpl in Hlive; [subst c|]; simpl;
      rewrite Ha;
      destruct (Tmp.await_settled us _) as [[[r|m] s2] t2]; reflexivity. }
  unfold Tmp.handler, Tmp.routes, Tmp.keepAlive, Tmp.route_connect. simpl.
  cbv [finish bind ret get modify emit when try_catch throw lift_outcome
       respond error_500].
  simpl. rewrite Hlive. simpl.
  rewrite (Hgo {| Tmp.sock := s0; Tmp.qrCode := q; Tmp.isConnected := c;
                  Tmp.lastActivity := l; Tmp.authFolder := d |}
             eq_refl eq_refl).
  clear Hgo Ha. subst us. simpl.
  unfold Tmp.connection_update, Tmp.remove_files. simpl. run. simpl.
  assert (Hqu' : match qu with Some x => negb (x =? "")%string | None => false end
                 = false) by exact Hqu.
  split.
  - intros ->. destruct qu as [x|]; simpl in *; [rewrite Hqu'|]; reflexivity.
  - intros -> Hout. rewrite Hout.
    destruct qu as [x|]; simpl in *; [rewrite Hqu'|]; reflexivity.
Qed.

Lemma X16_tmp_connect_settles_witness :
  Tmp.handler (H := baileys) (eventful 5 [connecting; opened 7; lost_close])
    (post_request "/api/connect" []) (Tmp.initial 0 [creds_file])
  = (respond 200 [("success", JBool true); ("connected", JBool true)],
     {| Tmp.sock := Some fresh_socket; Tmp.qrCode := None;
        Tmp.isConnected := true; Tmp.lastActivity := 7;
        Tmp.authFolder := Dir [creds_file] |},
     [EMakeSocket ["creds.json"]]).
Proof.
  exact (proj1 (X16_tmp_connect_settles baileys
                  (eventful 5 [connecting; opened 7; lost_close])
                  "http" "localhost:3000" (Some [])
                  (Tmp.initial 0 [creds_file]) (s := fresh_socket)
                  [connecting] [lost_close] (opened 7)
                  eq_refl eq_refl eq_refl eq_refl eq_refl) eq_refl).
Defined.

(** X17. In the Tmp variant GET /api/qr makes no socket when it has
    something to answer with: while a pairing code is held and the connected
    flag is down it returns that code, also when the socket that produced it
    has closed since; while the flag is up (and the session is not idle) it
    answers "Already connected".  The state stays as it is. *)
Theorem X17_tmp_qr_without_connecting (L : Library) (e : env) (p h : string)
    (b : option fields) (st : Tmp.state) :
  let req := {| method := "GET"; pathname := "/api/qr"; protocol := p;
                host := h; body := b |} in
  (forall q, Tmp.isConnected st = false -> Tmp.qrCode st = Some q ->
     truthy_str (Some q) = true ->
     Tmp.handler (H := L) e req st
     = (respond 200 [("success", JBool true); ("qr", JStr q);
                     ("message", JStr "Scan this QR code with WhatsApp")],
        st, [])) /\
  (Tmp.isConnected st = true ->
   (is_some (Tmp.sock st)
    && (now e - Tmp.lastActivity st >? Tmp.CONNECTION_TIMEOUT))%bool = false ->
   Tmp.handler (H := L) e req st
   = (respond 200 [("success", JBool false);
                   ("message", JStr "Already connected")],
      st, [])).
Proof.
  destruct st as [s q0 c l d]. cbv zeta. simpl. split.
  - intros q -> -> Hq.
    unfold Tmp.handler, Tmp.routes, Tmp.keepAlive, Tmp.route_qr. simpl.
    run. simpl. simpl in Hq.
    destruct s; simpl; rewrite ?Hq; simpl; rewrite ?Hq; reflexivity.
  - intros -> Hi.
    unfold Tmp.handler, Tmp.routes, Tmp.keepAlive, Tmp.route_qr. simpl.
    run. simpl.
    destruct s as [s|]; simpl in *; [rewrite Hi|]; reflexivity.
Qed.

Lemma X17_tmp_qr_without_connecting_witness :
  let held := {| Tmp.sock := Some fresh_socket; Tmp.qrCode := Some "2@abc";
                 Tmp.isConnected := false; Tmp.lastActivity := 0;
                 Tmp.authFolder := Dir [] |} in
  snd (Tmp.handler (H := baileys) (calm 10) (get_request "/api/qr") held) = [].
Proof.
  cbv zeta.
  exact (f_equal snd
           (proj1 (X17_tmp_qr_without_connecting baileys (calm 10)
                     "http" "localhost:3000" None
                     {| Tmp.sock := Some fresh_socket; Tmp.qrCode := Some "2@abc";
                        Tmp.isConnected := false; Tmp.lastActivity := 0;
                        Tmp.authFolder := Dir [] |})
              "2@abc" eq_refl eq_refl eq_refl)).
Defined.

(** ** After a close *)

(** X18. After a close, for whatever reason, the Tmp and Express variants
    keep the closed socket as their handle, so the status route reports
    connected:false together with the bot number of that socket; the Mongo
    variant drops the handle and reports botNumber:null. *)
Theorem X18_status_after_close (L : Library) (u : update) (e : env)
    (p h : string) (b : option fields) :
  conn u = Some Close ->
  (forall st : Tmp.state,
     let st' := snd (fst (Tmp.connection_update u st)) in
     let r := fst (fst (Tmp.handler (H := L) e
                {| method := "GET"; pathname := "/api/status"; protocol := p;
                   host := h; body := b |} st')) in
     Tmp.sock st' = Tmp.sock st /\
     json_field "connected" r = Some (JBool false) /\
     json_field "botNumber" r = Some (botNumber (Tmp.sock st))) /\
  (forall st : Express.state,
     let st' := snd (fst (Express.connection_update u st)) in
     let r := fst (fst (Express.app e
                {| method := "GET"; pathname := "/status"; protocol := p;
                   host := h; body := b |} st')) in
     Express.sock st' = Express.sock st /\
     json_field "connected" r = Some (JBool false) /\
     json_field "botNumber" r = Some (botNumber (Express.sock st))) /\
  (forall st : Mongo.state,
     let st' := snd (fst (Mongo.connection_update u st)) in
     let r := fst (fst (Mongo.handler e
                {| method := "GET"; pathname := "/status"; protocol := p;
                   host := h; body := b |} st')) in
     Mongo.sock st' = None /\
     json_field "status" r = Some (JStr "disconnected") /\
     json_field "botNumber" r = Some JNull).
Proof.
  destruct u as [c code q0 t0]. simpl. intros ->.
  split; [|split].
  - intros [s q c l d]. cbv zeta.
    unfold Tmp.connection_update, Tmp.remove_files,
      Tmp.handler, Tmp.routes, Tmp.keepAlive, Tmp.route_status. simpl.
    run. simpl.
    destruct q0 as [x|]; simpl; [destruct (x =? "")%string|]; simpl;
      (destruct (is_loggedOut code); simpl;
       [destruct (remove_auth_files d) as [[[[]|m] d'] t]; simpl|]);
      destruct s; simpl; repeat split.
  - intros [s g c q n d]. cbv zeta.
    unfold Express.connection_update, Express.remove_files,
      Express.app, Express.get_status. simpl.
    run. simpl.
    destruct q0 as [x|]; simpl; [destruct (x =? "")%string|]; simpl;
      (destruct (is_loggedOut code); simpl;
       [destruct (remove_auth_files d) as [[[[]|m] d'] t]; simpl
       |try destruct (n <? Express.MAX_RETRY_ATTEMPTS); simpl;
        try (destruct (remove_auth_files d) as [[[[]|m] d'] t]; simpl)]);
      repeat split.
  - intros [s q c d]. cbv zeta.
    unfold Mongo.connection_update, Mongo.handler, Mongo.routes,
      Mongo.route_status. simpl.
    run. simpl.
    destruct q0 as [x|]; simpl; [destruct (x =? "")%string|]; simpl;
      destruct (is_loggedOut code); repeat split.
Qed.

Lemma X18_status_after_close_witness :
  json_field "botNumber"
    (fst (fst (Express.app (calm 10) (get_request "/status")
                 (snd (fst (Express.connection_update (H := baileys) lost_close
                              (express_connected 1 [creds_file]))))))) 
  = Some (JStr "6281234567890").
Proof.
  destruct (proj1 (proj2 (X18_status_after_close baileys lost_close (calm 10)
                            "http" "localhost:3000" None eq_refl))
              (express_connected 1 [creds_file])) as (_ & _ & H).
  exact H.
Defined.

(** ** The credential documents *)

Section StoreFacts.

Lemma readData_in (k : string) (c : list Mongo.doc) :
  ~ In k (map Mongo.key c) -> Mongo.readData k c = None.
Proof.
  unfold Mongo.readData. induction c as [|x r IH]; simpl; [reflexivity|].
  intros H. destruct (Mongo.key x =? k)%string eqn:E.
  - apply String.eqb_eq in E. exfalso. apply H. left. exact E.
  - apply IH. intros Hin. apply H. right. exact Hin.
Qed.

Lemma writeData_keys (t : Z) (d k k' : string) (c : list Mongo.doc) :
  In k' (map Mongo.key (Mongo.writeData t d k c)) <->
  k' = k \/ In k' (map Mongo.key c).
Proof.
  induction c as [|x r IH]; simpl.
  - intuition.
  - destruct (Mongo.key x =? k)%string eqn:E; simpl.
    + apply String.eqb_eq in E. rewrite E. intuition.
    + rewrite IH. intuition.
Qed.

Lemma writeData_nodup (t : Z) (d k : string) (c : list Mongo.doc) :
  NoDup (map Mongo.key c) -> NoDup (map Mongo.key (Mongo.writeData t d k c)).
Proof.
  induction c as [|x r IH]; simpl; intros H.
  - constructor; [intros [] | constructor].
  - inversion H as [|? ? Hx Hr]; subst.
    destruct (Mongo.key x =? k)%string eqn:E; simpl.
    + apply String.eqb_eq in E. rewrite <- E. constructor; assumption.
    + constructor; [|apply IH; exact Hr].
      rewrite writeData_keys. intros [Hk|Hin]; [|exact (Hx Hin)].
      apply String.eqb_neq in E. exact (E Hk).
Qed.

Lemma removeData_keys (k k' : string) (c : list Mongo.doc) :
  In k' (map Mongo.key (Mongo.removeData k c)) -> In k' (map Mongo.key c).
Proof.
  induction c as [|x r IH]; simpl; [trivial|].
  destruct (Mongo.key x =? k)%string; simpl; intuition.
Qed.

Lemma removeData_nodup (k : string) (c : list Mongo.doc) :
  NoDup (map Mongo.key c) -> NoDup (map Mongo.key (Mongo.removeData k c)).
Proof.
  induction c as [|x r IH]; simpl; intros H; [constructor|].
  inversion H as [|? ? Hx Hr]; subst.
  destruct (Mongo.key x =? k)%string; simpl; [exact Hr|].
  constructor; [|apply IH; exact Hr].
  intros Hin. apply Hx. eapply removeData_keys. exact Hin.
Qed.

Lemma readData_removeData_other (k k' : string) (c : list Mongo.doc) :
  k' <> k -> Mongo.readData k' (Mongo.removeData k c) = Mongo.readData k' c.
Proof.
  intros Hk. unfold Mongo.readData.
  induction c as [|x r IH]; simpl; [reflexivity|].
  destruct (Mongo.key x =? k)%string eqn:E; simpl.
  - apply String.eqb_eq in E.
    destruct (Mongo.key x =? k')%string eqn:E'; [|reflexivity].
    apply String.eqb_eq in E'. exfalso. apply Hk. now rewrite <- E', E.
  - destruct (Mongo.key x =? k')%string; [reflexivity | exact IH].
Qed.

Lemma key_of_inj (type id1 id2 : string) :
  MongoAuth.key_of type id1 = MongoAuth.key_of type id2 -> id1 = id2.
Proof.
  unfold MongoAuth.key_of. induction type as [|c r IH]; simpl; intros H.
  - now inversion H.
  - inversion H. auto.
Qed.

Lemma set_category_other (t : Z) (category id : string)
    (entries : list (string * string)) (c : list Mongo.doc) :
  ~ In id (map fst entries) ->
  Mongo.readData (MongoAuth.key_of category id)
    (MongoAuth.set_category t category entries c)
  = Mongo.readData (MongoAuth.key_of category id) c.
Proof.
  revert c. induction entries as [|[id0 v0] r IH]; simpl; intros c H;
    [reflexivity|].
  rewrite IH by (intros Hin; apply H; right; exact Hin).
  apply readData_writeData_other.
  intros E. apply key_of_inj in E. apply H. left. now symmetry.
Qed.

End StoreFacts.

(** X19. The credential collection behaves as a map from keys to values as
    long as its keys are distinct, which [writeData] and [removeData]
    preserve: a written value is read back, a removed key reads as absent,
    and neither touches what is stored under another key. *)
Theorem X19_store_round_trips (t : Z) (d k : string) (c : list Mongo.doc) :
  NoDup (map Mongo.key c) ->
  NoDup (map Mongo.key (Mongo.writeData t d k c)) /\
  NoDup (map Mongo.key (Mongo.removeData k c)) /\
  Mongo.readData k (Mongo.writeData t d k c) = Some d /\
  Mongo.readData k (Mongo.removeData k c) = None /\
  (forall k', k' <> k ->
     Mongo.readData k' (Mongo.writeData t d k c) = Mongo.readData k' c /\
     Mongo.readData k' (Mongo.removeData k c) = Mongo.readData k' c).
Proof.
  intros Hn. repeat split.
  - apply writeData_nodup, Hn.
  - apply removeData_nodup, Hn.
  - apply readData_writeData.
  - apply readData_in. clear d t.
    induction c as [|x r IH]; simpl; [intros []|].
    inversion Hn as [|? ? Hx Hr]; subst.
    destruct (Mongo.key x =? k)%string eqn:E; simpl.
    + apply String.eqb_eq in E. now rewrite <- E.
    + intros [Hk|Hin]; [|exact (IH Hr Hin)].
      apply String.eqb_neq in E. exact (E Hk).
  - apply readData_writeData_other. assumption.
  - apply readData_removeData_other. assumption.
Qed.

Lemma X19_store_round_trips_witness :
  Mongo.readData "creds" (Mongo.removeData "creds" [creds_doc]) = None /\
  Mongo.readData "creds" (Mongo.writeData 5 "{v2}" "creds" [creds_doc])
  = Some "{v2}".
Proof.
  assert (Hn : NoDup (map Mongo.key [creds_doc]))
    by (constructor; [intros [] | constructor]).
  destruct (X19_store_round_trips 5 "{v2}" "creds" [creds_doc] Hn)
    as (_ & _ & W & R & _).
  exact (conj R W).
Defined.

(** X20. What [keys.set] stores for one category, [keys.get] returns: for
    distinct ids, every id written with a truthy value is read back with
    that value under its own name, and an id written with a falsy value is
    left out of the answer although its document stays. *)
Theorem X20_keys_round_trip (t : Z) (category id v : string)
    (entries : list (string * string)) (c : list Mongo.doc) :
  NoDup (map fst entries) ->
  In (id, v) entries ->
  let c' := MongoAuth.keys_set t [(category, entries)] c in
  Mongo.readData (MongoAuth.key_of category id) c' = Some v /\
  MongoAuth.keys_get category [id] c'
  = (if (v =? "")%string then [] else [(id, JStr v)]).
Proof.
  intros Hn Hin. cbv zeta. simpl.
  assert (Hr : Mongo.readData (MongoAuth.key_of category id)
                 (MongoAuth.set_category t category entries c) = Some v).
  { revert c. induction entries as [|[id0 v0] r IH]; simpl; intros c;
      [destruct Hin|].
    inversion Hn as [|? ? Hx Hr]; subst.
    destruct Hin as [E|Hin].
    - inversion E; subst. rewrite set_category_other by exact Hx.
      apply readData_writeData.
    - apply IH; assumption. }
  split; [exact Hr|].
  unfold MongoAuth.keys_get. simpl. rewrite Hr. simpl.
  destruct (v =? "")%string; reflexivity.
Qed.

Lemma X20_keys_round_trip_witness :
  MongoAuth.keys_get "pre-key" ["7"]
    (MongoAuth.keys_set 3 [("pre-key", [("7", "{k7}"); ("8", "")])] [creds_doc])
  = [("7", JStr "{k7}")].
Proof.
  assert (Hn : NoDup (map fst [("7", "{k7}"); ("8", "")])).
  { constructor; [intros [H|[]]; discriminate H|].
    constructor; [intros [] | constructor]. }
  exact (proj2 (X20_keys_round_trip 3 "pre-key" "7" "{k7}"
                  [("7", "{k7}"); ("8", "")] [creds_doc] Hn
                  (or_introl eq_refl))).
Defined.

(** ** Normalizing and showing numbers *)

Section Numbers.

Lemma strip_length (s : string) :
  (String.length (strip_non_digits s) <= String.length s)%nat.
Proof.
  induction s as [|c s IH]; simpl; [lia|].
  destruct (is_digit c); simpl; lia.
Qed.

Lemma before_colon_no_colon (s : string) : no_colon (before_colon s) = true.
Proof.
  induction s as [|c s IH]; simpl; [reflexivity|].
  destruct (Ascii.eqb c ":") eqn:E; simpl; [reflexivity|].
  now rewrite E.
Qed.

Lemma before_colon_split (a b : string) :
  no_colon a = true -> before_colon (a ++ String ":" b) = a.
Proof.
  induction a as [|c a IH]; simpl; [reflexivity|].
  destruct (Ascii.eqb c ":"); simpl; [discriminate|].
  intros H. now rewrite IH.
Qed.

Lemma before_colon_whole (s : string) :
  no_colon s = true -> before_colon s = s.
Proof.
  induction s as [|c s IH]; simpl; [reflexivity|].
  destruct (Ascii.eqb c ":"); simpl; [discriminate|].
  intros H. now rewrite IH.
Qed.

End Numbers.

(** X21. formatPhoneNumber looks at the digits only: separators, spaces and
    signs anywhere in the input do not change the result; an input without
    any digit gives the bare country code 62; and the result is at most two
    characters longer than the input. *)
Theorem X21_format_digits_only (phone : string) :
  formatPhoneNumber phone = formatPhoneNumber (strip_non_digits phone) /\
  (forall a sep b, phone = a ++ sep ++ b -> no_digit sep = true ->
     formatPhoneNumber phone = formatPhoneNumber (a ++ b)) /\
  (no_digit phone = true -> formatPhoneNumber phone = "62") /\
  (String.length (formatPhoneNumber phone) <= String.length phone + 2)%nat.
Proof.
  assert (H1 : forall s, formatPhoneNumber s
                         = formatPhoneNumber (strip_non_digits s)).
  { intros s. unfold formatPhoneNumber.
    now rewrite (strip_digits_id _ (strip_all_digits s)). }
  split; [apply H1|]. split; [|split].
  - intros a sep b -> Hsep. rewrite H1, (H1 (a ++ b)).
    rewrite !strip_app, (strip_no_digit _ Hsep). reflexivity.
  - intros Hn. unfold formatPhoneNumber. rewrite (strip_no_digit _ Hn).
    reflexivity.
  - pose proof (strip_length phone) as Hl. unfold formatPhoneNumber.
    destruct (startsWith (strip_non_digits phone) "0") eqn:H0.
    + apply startsWith_one in H0. destruct H0 as [r Hr]. rewrite Hr in *.
      simpl in *. lia.
    + destruct (startsWith (strip_non_digits phone) "62"); simpl; lia.
Qed.

Lemma X21_format_digits_only_witness :
  formatPhoneNumber "0812-3456" = formatPhoneNumber ("0812" ++ "3456") /\
  formatPhoneNumber "+-() " = "62".
Proof.
  split.
  - exact (proj1 (proj2 (X21_format_digits_only "0812-3456"))
             "0812" "-" "3456" eq_refl eq_refl).
  - exact (proj1 (proj2 (proj2 (X21_format_digits_only "+-() "))) eq_refl).
Defined.

(** X22. The bot number shown by the status routes is the part of the
    handle's user id before its first colon: for an id [n:device@server]
    it is [n], for an id without a colon it is the whole id, and it never
    holds a colon.  Without a handle, without a user, or with an empty id
    it is null. *)
Theorem X22_bot_number (s : socket) (u : wa_user) :
  user s = Some u ->
  (botNumber None = JNull /\
   botNumber (Some {| user := None; own_props := own_props s |}) = JNull) /\
  (id u = "" -> botNumber (Some s) = JNull) /\
  (id u <> "" ->
   botNumber (Some s) = JStr (before_colon (id u)) /\
   no_colon (before_colon (id u)) = true /\
   (forall n rest, id u = n ++ String ":" rest -> no_colon n = true ->
      botNumber (Some s) = JStr n) /\
   (no_colon (id u) = true -> botNumber (Some s) = JStr (id u))).
Proof.
  destruct s as [us pr]. simpl. intros ->. split; [split; reflexivity|].
  split.
  - intros ->. reflexivity.
  - intros Hne. apply String.eqb_neq in Hne. unfold botNumber. rewrite Hne.
    repeat split.
    + apply before_colon_no_colon.
    + intros n rest -> Hn. now rewrite before_colon_split.
    + intros Hn. now rewrite before_colon_whole.
Qed.

Lemma X22_bot_number_witness :
  botNumber (Some paired_socket) = JStr "6281234567890".
Proof.
  assert (Hne : id {| id := "6281234567890:12@s.whatsapp.net"; name := Some "Bot" |}
                <> "") by discriminate.
  exact (proj1 (proj2 (proj2 (proj2 (proj2 (X22_bot_number paired_socket eq_refl)) Hne)))
           "6281234567890" "12@s.whatsapp.net" eq_refl eq_refl).
Defined.

(** ** A removal that stops half way *)

(** X23. The loop that unlinks the credential files removes them in
    directory order and stops at the first entry whose unlink throws: the
    entries before it are gone, that entry and all later ones stay, the
    error is that entry's, and one unlink was tried per removed entry plus
    the failing one.  When no entry fails nothing stays. *)
Theorem X23_partial_removal (fs : list file) :
  exists gone : list file,
    fs = (gone ++ snd (fst (unlink_files fs)))%list /\
    forallb (fun f => negb (is_some (unlink_error f))) gone = true /\
    match fst (fst (unlink_files fs)) with
    | Returns _ =>
        snd (fst (unlink_files fs)) = [] /\
        snd (unlink_files fs) = map (fun f => EUnlink (fname f)) gone
    | Throws msg =>
        exists f r,
          snd (fst (unlink_files fs)) = f :: r /\
          unlink_error f = Some msg /\
          snd (unlink_files fs)
          = (map (fun f => EUnlink (fname f)) gone ++ [EUnlink (fname f)])%list
    end.
Proof.
  induction fs as [|f r IH]; simpl.
  - exists []. repeat split.
  - destruct (unlink_error f) as [msg|] eqn:E; simpl.
    + exists []. repeat split. exists f, r. repeat split. exact E.
    + destruct IH as (gone & Hfs & Hok & Hm).
      destruct (unlink_files r) as [[o r'] t]. simpl in *.
      exists (f :: gone). simpl. rewrite E. simpl.
      split; [now rewrite <- Hfs|]. split; [exact Hok|].
      destruct o as [[]|msg].
      * destruct Hm as [-> ->]. split; reflexivity.
      * destruct Hm as (f' & r'' & -> & He & ->).
        exists f', r''. repeat split. exact He.
Qed.

(** ** Connecting while connected *)

(** X24. With a live session the connect function of the Tmp and Mongo
    variants hands back the handle it has and makes no socket: POST
    /api/connect answers 200 with success:true and the handle's properties
    and only stamps [lastActivity]; [initWhatsApp] changes nothing. *)
Theorem X24_connect_when_live (L : Library) (e : env) (p h : string)
    (b : option fields) (s : socket) :
  (forall st : Tmp.state,
     Tmp.sock st = Some s -> Tmp.isConnected st = true ->
     now e - Tmp.lastActivity st <= Tmp.CONNECTION_TIMEOUT ->
     Tmp.handler (H := L) e
       {| method := "POST"; pathname := "/api/connect"; protocol := p;
          host := h; body := b |} st
     = (respond 200 (spread [("success", JBool true)] (own_props s)),
        Tmp.set_lastActivity (now e) st, [])) /\
  (forall st : Mongo.state,
     Mongo.sock st = Some s -> Mongo.isConnected st = true ->
     Mongo.initWhatsApp e st = (Returns s, st, [])).
Proof.
  split.
  - intros [s0 q c l d]. simpl. intros -> -> Hidle.
    assert (Hgt : (now e - l >? Tmp.CONNECTION_TIMEOUT) = false).
    { rewrite Z.gtb_ltb. apply Z.ltb_ge. exact Hidle. }
    unfold Tmp.handler, Tmp.routes, Tmp.keepAlive, Tmp.route_connect,
      Tmp.connectToWhatsApp. simpl. run. simpl. rewrite Hgt. reflexivity.
  - intros [s0 q c d]. simpl. intros -> ->. reflexivity.
Qed.

Lemma X24_connect_when_live_witness :
  Tmp.handler (H := baileys) (calm 1000) (post_request "/api/connect" [])
    (tmp_connected 0 [creds_file])
  = (respond 200 [("success", JBool true)],
     tmp_connected 1000 [creds_file], []).
Proof.
  assert (Hidle : now (calm 1000) - Tmp.lastActivity (tmp_connected 0 [creds_file])
                  <= Tmp.CONNECTION_TIMEOUT) by (vm_compute; discriminate).
  exact (proj1 (X24_connect_when_live baileys (calm 1000) "http"
                  "localhost:3000" (Some []) paired_socket)
           (tmp_connected 0 [creds_file]) eq_refl eq_refl Hidle).
Defined.
